(** * MySQL dialect adaptation layer: JSON path formatting and the
      MySQL Connector/Python dialect

    A shallow embedding of

    - [lib/sqlalchemy/dialects/mysql/json.py]
      ([JSONIndexType._format_value], [JSONPathType._format_value]) and
    - [lib/sqlalchemy/dialects/mysql/mysqlconnector.py]
      ([visit_mod_binary], the identifier preparer, [create_connect_args],
      [is_disconnect]),

    together with the fragments of Python the two files rely on: the
    [%] string formatting operator, [str.join], [str.replace], the
    substring test [in], dictionaries, exceptions and [try]/[except]. *)

From Stdlib Require Import ZArith String Ascii List Lia DecimalString DecimalZ.
From stdpp Require Import base option strings gmap.

Local Open Scope string_scope.
Local Open Scope Z_scope.

(** ** Python values and exceptions *)

(** The scalar values that reach the modelled functions: option values
    parsed from a URL, JSON path steps, error codes. *)
Inductive value : Type :=
  | VNone
  | VBool (b : bool)
  | VInt (n : Z)
  | VStr (s : string).

(** The exception classes raised by the modelled code.
    [ConfigurationError] is the error the option coercer raises for a
    malformed value; it carries the offending option name. *)
Inductive pyexc : Type :=
  | AttributeError
  | TypeError
  | ValueError
  | ImportError
  | ConfigurationError (key : string).

(** A computation either returns or raises. *)
Inductive result (A : Type) : Type :=
  | Return (a : A)
  | Raise (e : pyexc).
Arguments Return {A} a.
Arguments Raise {A} e.

#[global] Instance result_ret : MRet result := fun A a => Return a.
#[global] Instance result_bind : MBind result := fun A B f m =>
  match m with
  | Return a => f a
  | Raise e => Raise e
  end.

(** [try: body except Exception: handler]: every modelled exception
    class derives from [Exception]. *)
Definition try_except {A} (body : result A) (handler : result A) : result A :=
  match body with
  | Return a => Return a
  | Raise _ => handler
  end.

(** [for x in l] collecting results, as a list comprehension does; the
    first exception aborts the comprehension. *)
Fixpoint comprehension {A B} (f : A -> result B) (l : list A) : result (list B) :=
  match l with
  | [] => Return []
  | x :: l' => y ← f x; ys ← comprehension f l'; Return (y :: ys)
  end.

(** ** Python builtins *)

Module Py.

Definition dquote : ascii := "034"%char.

(** [str(n)] for an [int]: decimal digits, [-] in front of a negative. *)
Definition str_int (n : Z) : string := NilZero.string_of_int (Z.to_int n).

(** [str(v)]. *)
Definition str (v : value) : string :=
  match v with
  | VNone => "None"
  | VBool true => "True"
  | VBool false => "False"
  | VInt n => str_int n
  | VStr s => s
  end.

(** [isinstance(v, int)]; [bool] is a subclass of [int]. *)
Definition isinstance_int (v : value) : bool :=
  match v with
  | VInt _ | VBool _ => true
  | _ => false
  end.

(** [a == b] on scalars; [True == 1] and [False == 0]. *)
Definition as_int (v : value) : option Z :=
  match v with
  | VInt n => Some n
  | VBool b => Some (if b then 1 else 0)
  | _ => None
  end.

Definition eq (a b : value) : bool :=
  match a, b with
  | VNone, VNone => true
  | VStr s, VStr t => String.eqb s t
  | _, _ =>
      match as_int a, as_int b with
      | Some x, Some y => x =? y
      | _, _ => false
      end
  end.

(** [v in t] for a tuple [t]. *)
Definition in_tuple (v : value) (t : list value) : bool := existsb (eq v) t.

(** [a | b]: defined on [int] (and [bool]); anything else raises
    [TypeError]. *)
Definition bor (a b : value) : result value :=
  match as_int a, as_int b with
  | Some x, Some y => Return (VInt (Z.lor x y))
  | _, _ => Raise TypeError
  end.

(** [fmt % arg] with a single, non-tuple argument.  [%s] consumes the
    argument and inserts [str(arg)], [%%] is a literal percent sign;
    a missing or unused argument raises [TypeError], any other
    conversion is outside this model and reported as [ValueError]. *)
Fixpoint format (fmt : string) (arg : option value) : result string :=
  match fmt with
  | EmptyString =>
      match arg with
      | None => Return EmptyString
      | Some _ => Raise TypeError
      end
  | String c rest =>
      if Ascii.eqb c "%" then
        match rest with
        | EmptyString => Raise ValueError
        | String d rest' =>
            if Ascii.eqb d "s" then
              match arg with
              | Some v => r ← format rest' None; Return (str v +:+ r)
              | None => Raise TypeError
              end
            else if Ascii.eqb d "%" then
              r ← format rest' arg; Return (String "%" r)
            else Raise ValueError
        end
      else r ← format rest arg; Return (String c r)
  end.

Definition percent (fmt : string) (arg : value) : result string :=
  format fmt (Some arg).

(** [sep.join(l)]. *)
Fixpoint join (sep : string) (l : list string) : string :=
  match l with
  | [] => EmptyString
  | [x] => x
  | x :: l' => x +:+ sep +:+ join sep l'
  end.

(** [s.startswith(p)]. *)
Fixpoint startswith (p s : string) : bool :=
  match p, s with
  | EmptyString, _ => true
  | String a p', String b s' => Ascii.eqb a b && startswith p' s'
  | String _ _, EmptyString => false
  end.

(** [needle in hay] on strings. *)
Fixpoint contains (needle hay : string) : bool :=
  startswith needle hay ||
  match hay with
  | EmptyString => false
  | String _ hay' => contains needle hay'
  end.

(** [s.replace(old, new)]: the occurrences of [old] are found left to
    right and do not overlap.  [skip] counts the characters of a
    matched occurrence still to be dropped. *)
Fixpoint replace_from (old new : string) (skip : nat) (s : string) : string :=
  match s with
  | EmptyString => EmptyString
  | String c s' =>
      match skip with
      | S n => replace_from old new n s'
      | O =>
          if startswith old s
          then new +:+ replace_from old new (Nat.pred (String.length old)) s'
          else String c (replace_from old new 0 s')
      end
  end.

(** With an empty [old], [new] is inserted before every character and
    at the end. *)
Fixpoint intersperse (new s : string) : string :=
  match s with
  | EmptyString => new
  | String c s' => new +:+ String c (intersperse new s')
  end.

Definition replace (old new s : string) : string :=
  match old with
  | EmptyString => intersperse new s
  | String _ _ => replace_from old new 0 s
  end.

End Py.

(** ** [dialects/mysql/json.py] *)

Module JSONIndexType.

(** The two format strings are ["$[%s]"] and ['$."%s"']. *)
Definition _format_value (value : value) : result string :=
  if Py.isinstance_int value
  then Py.percent "$[%s]" value
  else Py.percent (String "$" (String "." (String Py.dquote
                    (String "%" (String "s" (String Py.dquote EmptyString))))))
                  value.

End JSONIndexType.

Module JSONPathType.

(** The per-element format strings are ["[%s]"] and ['."%s"'], the
    outer one is ["$%s"]. *)
Definition _format_value (value : list value) : result string :=
  frags ← comprehension
             (fun elem =>
                if Py.isinstance_int elem
                then Py.percent "[%s]" elem
                else Py.percent (String "." (String Py.dquote
                       (String "%" (String "s" (String Py.dquote EmptyString)))))
                       elem)
             value;
  Py.percent "$%s" (VStr (Py.join EmptyString frags)).

End JSONPathType.

(** ** Collaborators of [dialects/mysql/mysqlconnector.py] *)

(** The Python type objects handed to the option coercer. *)
Inductive pytype : Type := py_bool | py_int.

Module util.

Section Coercion.

(** The conversion a declared type applies to a raw option value;
    [None] stands for an unparseable value. *)
Variable to_bool : value -> option bool.
Variable to_int : value -> option Z.

(** Modelled from the spec: the value of a declared key is coerced "to
    its declared type", boolean or integer; the conversion itself is
    part of [lib/sqlalchemy/util], outside the two source files. *)
Definition convert (type_ : pytype) (v : value) : option value :=
  match type_ with
  | py_bool => VBool <$> to_bool v
  | py_int => VInt <$> to_int v
  end.

(** Modelled from the spec: [util.coerce_kw_type] lives in
    [lib/sqlalchemy/util], outside the two source files.  A key that
    is present is coerced to its declared type, a key that is absent
    stays absent, and an unparseable value fails with a
    configuration error naming the option.  The dictionary is
    updated in place; here the updated dictionary is returned. *)
Definition coerce_kw_type (kw : gmap string value) (key : string)
    (type_ : pytype) : result (gmap string value) :=
  match kw !! key with
  | None => Return kw
  | Some v =>
      match convert type_ v with
      | Some v' => Return (<[key := v']> kw)
      | None => Raise (ConfigurationError key)
      end
  end.

End Coercion.

(** Modelled from the spec: the boolean conversion "recognizes common
    truthy/falsy string forms"; a value that is already a boolean is
    kept, an integer is true when non-zero. *)
Definition asbool (v : value) : option bool :=
  match v with
  | VBool b => Some b
  | VInt n => Some (negb (n =? 0))
  | VStr s =>
      if existsb (String.eqb s) ["true"; "yes"; "on"; "y"; "t"; "1"] then Some true
      else if existsb (String.eqb s) ["false"; "no"; "off"; "n"; "f"; "0"] then Some false
      else None
  | VNone => None
  end.

(** Modelled from the spec: the integer conversion is a "numeric
    parse" of a decimal numeral; a value that is already an integer
    is kept. *)
Definition asint (v : value) : option Z :=
  match v with
  | VInt n => Some n
  | VBool b => Some (if b then 1 else 0)
  | VStr s => Z.of_int <$> NilZero.int_of_string s
  | VNone => None
  end.

End util.

Module URL.

(** Modelled from the spec: the URL object of
    [lib/sqlalchemy/engine/url.py], outside the two source files, with
    its standard fields and its query mapping. *)
Record t : Type := mk {
  username : option string;
  password : option string;
  host : option string;
  port : option Z;
  database : option string;
  query : gmap string value
}.

Definition set_field (name : string) (v : option value)
    (d : gmap string value) : gmap string value :=
  match v with
  | Some x => <[name := x]> d
  | None => d
  end.

(** Modelled from the spec: [URL.translate_connect_args] lives in
    [lib/sqlalchemy/engine/url.py], outside the two source files.  The
    standard fields host, database, username, password and port that
    are set are copied into a fresh dictionary; [username_key] is the
    name the caller gives to the username field. *)
Definition translate_connect_args (url : t) (username_key : string)
    : gmap string value :=
  set_field "port" (VInt <$> port url)
    (set_field "password" (VStr <$> password url)
      (set_field username_key (VStr <$> username url)
        (set_field "database" (VStr <$> database url)
          (set_field "host" (VStr <$> host url) ∅)))).

End URL.

(** [mysql.connector.constants.ClientFlag], part of the driver: the two
    attributes the dialect reads.  Either lookup may raise. *)
Module ClientFlag.
Record t : Type := mk {
  get_default : result Z;
  FOUND_ROWS : result Z
}.
End ClientFlag.

(** Python classes are identified by their qualified name. *)
Definition pyclass : Type := string.

(** The DBAPI module object held by the dialect. *)
Module DBAPI.
Record t : Type := mk {
  OperationalError : pyclass;
  InterfaceError : pyclass
}.
End DBAPI.

(** An exception instance as [is_disconnect] observes it: the classes
    it is an instance of, its [errno] attribute ([None] when the
    instance has no such attribute) and the outcome of [str(e)]. *)
Module Exc.
Record t : Type := mk {
  classes : list pyclass;
  errno : option value;
  message : result string
}.

(** [isinstance(e, (c1, ..., cn))]. *)
Definition isinstance (e : t) (cs : list pyclass) : bool :=
  existsb (fun c => existsb (String.eqb c) (classes e)) cs.

(** [e.errno]. *)
Definition get_errno (e : t) : result value :=
  match errno e with
  | Some v => Return v
  | None => Raise AttributeError
  end.
End Exc.

(** ** [dialects/mysql/mysqlconnector.py] *)

Module MySQLCompiler_mysqlconnector.

Record BinaryExpression (expr : Type) : Type := mk {
  left : expr;
  right : expr
}.
Arguments mk {expr} left right.
Arguments left {expr} b.
Arguments right {expr} b.

Section Compiler.

(** [self.process], the generic compiler's rendering of an operand
    under the keyword arguments [kw]. *)
Variables expr kwargs : Type.
Variable process : expr -> kwargs -> result string.

Definition visit_mod_binary (binary : BinaryExpression expr)
    (operator : value) (kw : kwargs) : result string :=
  l ← process (left binary) kw;
  r ← process (right binary) kw;
  Return (l +:+ " % " +:+ r).

End Compiler.

End MySQLCompiler_mysqlconnector.

Module MySQLIdentifierPreparer_mysqlconnector.

(** The two attributes of the base preparer the override reads. *)
Record t : Type := mk {
  escape_quote : string;
  escape_to_quote : string
}.

(** The [_double_percents] property. *)
Definition _double_percents (self : t) : bool := false.

(** Its setter. *)
Definition set__double_percents (self : t) (value : bool) : t := self.

Definition _escape_identifier (self : t) (value : string) : string :=
  Py.replace (escape_quote self) (escape_to_quote self) value.

End MySQLIdentifierPreparer_mysqlconnector.

Module MySQLDialect_mysqlconnector.

Record t : Type := mk {
  dbapi : option DBAPI.t
}.

Definition errnos : list Z := [2006; 2013; 2014; 2045; 2055; 2048].

Section ConnectArgs.

Variable to_bool : value -> option bool.
Variable to_int : value -> option Z.

(** The outcome of [from mysql.connector.constants import ClientFlag]. *)
Variable import_ClientFlag : result ClientFlag.t.

Abbreviation coerce_kw_type := (util.coerce_kw_type to_bool to_int).

(** The first two statements: the translated URL fields, updated
    with the query string. *)
Definition url_opts (url : URL.t) : gmap string value :=
  URL.query url ∪ URL.translate_connect_args url "user".

(** The seventeen coercions. *)
Definition coerce_opts (opts : gmap string value) : result (gmap string value) :=
  opts ← coerce_kw_type opts "allow_local_infile" py_bool;
  opts ← coerce_kw_type opts "autocommit" py_bool;
  opts ← coerce_kw_type opts "buffered" py_bool;
  opts ← coerce_kw_type opts "client_flag" py_int;
  opts ← coerce_kw_type opts "compress" py_bool;
  opts ← coerce_kw_type opts "connection_timeout" py_int;
  opts ← coerce_kw_type opts "connect_timeout" py_int;
  opts ← coerce_kw_type opts "consume_results" py_bool;
  opts ← coerce_kw_type opts "force_ipv6" py_bool;
  opts ← coerce_kw_type opts "get_warnings" py_bool;
  opts ← coerce_kw_type opts "pool_reset_session" py_bool;
  opts ← coerce_kw_type opts "pool_size" py_int;
  opts ← coerce_kw_type opts "raise_on_warnings" py_bool;
  opts ← coerce_kw_type opts "raw" py_bool;
  opts ← coerce_kw_type opts "ssl_verify_cert" py_bool;
  opts ← coerce_kw_type opts "use_pure" py_bool;
  coerce_kw_type opts "use_unicode" py_bool.

(** [opts.setdefault(key, v)]. *)
Definition setdefault (opts : gmap string value) (key : string) (v : value)
    : gmap string value :=
  match opts !! key with
  | Some _ => opts
  | None => <[key := v]> opts
  end.

(** The body of the [try] block.  The dictionary is written by its last
    statement only, so an exception leaves [opts] as it was. *)
Definition merge_found_rows (opts : gmap string value)
    : result (gmap string value) :=
  cf ← import_ClientFlag;
  default ← ClientFlag.get_default cf;
  let client_flags :=
    match opts !! "client_flags" with
    | Some v => v
    | None => VInt default
    end in
  found_rows ← ClientFlag.FOUND_ROWS cf;
  client_flags ← Py.bor client_flags (VInt found_rows);
  Return (<["client_flags" := client_flags]> opts).

Definition create_connect_args (self : t) (url : URL.t)
    : result (list value * gmap string value) :=
  let opts := url_opts url in
  opts ← coerce_opts opts;
  let opts := setdefault opts "buffered" (VBool true) in
  let opts :=
    match dbapi self with
    | Some _ => try_except (merge_found_rows opts) (Return opts)
    | None => Return opts
    end in
  opts ← opts;
  Return ([], opts).

End ConnectArgs.

Definition is_disconnect (self : t) (e : Exc.t) (connection cursor : value)
    : result bool :=
  d ← match dbapi self with
       | Some d => Return d
       | None => Raise AttributeError
       end;
  let exceptions := [DBAPI.OperationalError d; DBAPI.InterfaceError d] in
  if Exc.isinstance e exceptions then
    errno ← Exc.get_errno e;
    if Py.in_tuple errno (VInt <$> errnos) then Return true
    else
      s ← Exc.message e;
      if Py.contains "MySQL Connection not available." s then Return true
      else
        s ← Exc.message e;
        Return (Py.contains "Connection to MySQL is not available" s)
  else Return false.

End MySQLDialect_mysqlconnector.


(** ** Specification-side notions *)

(** A path step is an integer index or a string key. *)
Inductive PathStep : Type :=
  | IndexStep (i : Z)
  | KeyStep (k : string).

Definition step_value (s : PathStep) : value :=
  match s with
  | IndexStep i => VInt i
  | KeyStep k => VStr k
  end.

(** The key [k] between two quote characters. *)
Definition quoted (k : string) : string :=
  String Py.dquote (k +:+ String Py.dquote EmptyString).

(** The fragment of one step inside a full path: [[i]] or [."k"]. *)
Definition fragment (s : PathStep) : string :=
  match s with
  | IndexStep i => "[" +:+ Py.str_int i +:+ "]"
  | KeyStep k => "." +:+ quoted k
  end.

(** The path expression as the specification words it: a [$] followed
    by the fragments of the steps, in order, nothing in between. *)
Fixpoint fragments (p : list PathStep) : string :=
  match p with
  | [] => EmptyString
  | s :: p' => fragment s +:+ fragments p'
  end.

Definition path_expression (p : list PathStep) : string :=
  String "$" (fragments p).

(** The integer a decimal numeral denotes. *)
Definition decimal_value (s : string) : option Z :=
  Z.of_int <$> NilZero.int_of_string s.

(** The number of occurrences of a character. *)
Fixpoint count_char (c : ascii) (s : string) : nat :=
  match s with
  | EmptyString => 0%nat
  | String d s' => ((if Ascii.eqb c d then 1 else 0) + count_char c s')%nat
  end.

(** [needle] occurs in [hay]. *)
Definition occurs (needle hay : string) : Prop :=
  exists a b, hay = a +:+ needle +:+ b.

(** [replaced old new s r]: [r] is [s] with every occurrence of [old],
    taken leftmost first and without overlap, replaced by [new], and
    every other character kept. *)
Inductive replaced (old new : string) : string -> string -> Prop :=
  | replaced_done s :
      ~ occurs old s ->
      replaced old new s s
  | replaced_step a b r :
      (forall a' b', a +:+ old +:+ b = a' +:+ old +:+ b' ->
                     (String.length a <= String.length a')%nat) ->
      replaced old new b r ->
      replaced old new (a +:+ old +:+ b) (a +:+ new +:+ r).

(** The declared option schema: the thirteen boolean and the four
    integer option names. *)
Definition boolean_keys : list string :=
  ["allow_local_infile"; "autocommit"; "buffered"; "compress";
   "consume_results"; "force_ipv6"; "get_warnings"; "pool_reset_session";
   "raise_on_warnings"; "raw"; "ssl_verify_cert"; "use_pure"; "use_unicode"].

Definition integer_keys : list string :=
  ["client_flag"; "connection_timeout"; "connect_timeout"; "pool_size"].

(** [declared k ty]: the schema declares option [k] with type [ty]. *)
Definition declared (k : string) (ty : pytype) : Prop :=
  (ty = py_bool /\ k ∈ boolean_keys) \/ (ty = py_int /\ k ∈ integer_keys).

(** The same schema in the order the dialect applies it. *)
Definition declared_types : list (string * pytype) :=
  [("allow_local_infile", py_bool); ("autocommit", py_bool);
   ("buffered", py_bool); ("client_flag", py_int); ("compress", py_bool);
   ("connection_timeout", py_int); ("connect_timeout", py_int);
   ("consume_results", py_bool); ("force_ipv6", py_bool);
   ("get_warnings", py_bool); ("pool_reset_session", py_bool);
   ("pool_size", py_int); ("raise_on_warnings", py_bool); ("raw", py_bool);
   ("ssl_verify_cert", py_bool); ("use_pure", py_bool);
   ("use_unicode", py_bool)].

(** Coercing a list of declared keys one after the other. *)
Fixpoint coerce_each (to_bool : value -> option bool) (to_int : value -> option Z)
    (sch : list (string * pytype)) (opts : gmap string value)
    : result (gmap string value) :=
  match sch with
  | [] => Return opts
  | (key, type_) :: sch' =>
      opts' ← util.coerce_kw_type to_bool to_int opts key type_;
      coerce_each to_bool to_int sch' opts'
  end.

(** The two "connection not available" phrases. *)
Definition phrase1 : string := "MySQL Connection not available.".
Definition phrase2 : string := "Connection to MySQL is not available".

(** The recognized categories of a driver module. *)
Definition recognized (d : DBAPI.t) (e : Exc.t) : bool :=
  Exc.isinstance e [DBAPI.OperationalError d; DBAPI.InterfaceError d].

(** The statement that classification never raises on an instance of a
    recognized category and answers false when the error code or the
    message cannot be extracted. *)
Definition never_raises : Prop :=
  forall (self : MySQLDialect_mysqlconnector.t) (d : DBAPI.t) (e : Exc.t)
         (connection cursor : value),
    MySQLDialect_mysqlconnector.dbapi self = Some d ->
    recognized d e = true ->
    exists b,
      MySQLDialect_mysqlconnector.is_disconnect self e connection cursor = Return b
      /\ (Exc.errno e = None \/ (exists x, Exc.message e = Raise x) -> b = false).

(** A URL carries its query values as strings. *)
Definition is_string (v : value) : bool :=
  match v with
  | VStr _ => true
  | _ => false
  end.

Definition string_valued (query : gmap string value) : Prop :=
  map_Forall (fun _ v => is_string v = true) query.

(** ** Further builtins and the [re] module *)

Module Builtins.

(** [int(s)] for a string [s] that is a decimal numeral, with an
    optional minus sign in front; anything else raises [ValueError].
    The spellings [int] accepts beyond that (surrounding blanks, a plus
    sign, underscores) do not occur where the dialect calls it: on a
    match of [\d+]. *)
Definition int_ (s : string) : result Z :=
  match NilZero.int_of_string s with
  | Some d => Return (Z.of_int d)
  | None => Raise ValueError
  end.

End Builtins.

Module re.

(** [\d] on a version string held as bytes: the ASCII digits. *)
Definition is_digit (c : ascii) : bool := (("0" <=? c) && (c <=? "9"))%char.

(** The pattern constructs the dialect uses: an escaped literal
    character, [c+] for a character class [c], a numbered capturing
    group, an optional non-capturing group [(?:p)?] and concatenation. *)
Inductive pattern : Type :=
  | Lit (c : ascii)
  | Plus (cls : ascii -> bool)
  | Group (n : nat) (p : pattern)
  | Opt (p : pattern)
  | Seq (p q : pattern).

(** The text between the start [s] of a group and the rest [s'] left
    when the group ends. *)
Definition consumed (s s' : string) : string :=
  substring 0 (String.length s - String.length s') s.

Section Matcher.

Context {A : Type}.

(** Greedy repetition: the longest run is tried first, and a character
    is given back each time the continuation [k] fails. *)
Fixpoint star (cls : ascii -> bool) (s : string) (k : string -> option A)
    : option A :=
  match s with
  | String c s' =>
      if cls c then
        match star cls s' k with
        | Some r => Some r
        | None => k s
        end
      else k s
  | EmptyString => k s
  end.

Definition plus (cls : ascii -> bool) (s : string) (k : string -> option A)
    : option A :=
  match s with
  | String c s' => if cls c then star cls s' k else None
  | EmptyString => None
  end.

(** The backtracking matcher, in continuation-passing style: [k]
    receives the rest of the subject and the groups captured so far. *)
Fixpoint run (p : pattern) (s : string) (g : gmap nat string)
    (k : string -> gmap nat string -> option A) : option A :=
  match p with
  | Lit c =>
      match s with
      | String d s' => if Ascii.eqb c d then k s' g else None
      | EmptyString => None
      end
  | Plus cls => plus cls s (fun s' => k s' g)
  | Group n p => run p s g (fun s' g' => k s' (<[n := consumed s s']> g'))
  | Opt p =>
      match run p s g k with
      | Some r => Some r
      | None => k s g
      end
  | Seq p q => run p s g (fun s' g' => run q s' g' k)
  end.

End Matcher.

(** [re.match(p, s)]: a match anchored at the start of [s], not at its
    end; the match object is the table of its groups. *)
Definition match_ (p : pattern) (s : string) : option (gmap nat string) :=
  run p s ∅ (fun _ g => Some g).

(** [m.group(n1, ..., nk)]: [None] for a group that did not take part. *)
Definition group (m : gmap nat string) (ns : list nat) : list (option string) :=
  (fun n => m !! n) <$> ns.

End re.

(** ** [dialects/mysql/mysqlconnector.py], continued *)

Module MySQLDialect_mysqlconnector_info.

(** The pattern [(\d+)\.(\d+)(?:\.(\d+))?]. *)
Definition version_pattern : re.pattern :=
  re.Seq (re.Group 1 (re.Plus re.is_digit))
    (re.Seq (re.Lit ".")
      (re.Seq (re.Group 2 (re.Plus re.is_digit))
        (re.Opt (re.Seq (re.Lit ".") (re.Group 3 (re.Plus re.is_digit)))))).

Section VersionInfo.

(** The [__version__] attribute of the driver module; [None] when the
    module has no such attribute. *)
Variable __version__ : DBAPI.t -> option value.

(** The memoized property; [re.match] raises [TypeError] on a value
    that is not a string. *)
Definition _mysqlconnector_version_info (self : MySQLDialect_mysqlconnector.t)
    : result (option (list Z)) :=
  match MySQLDialect_mysqlconnector.dbapi self with
  | Some d =>
      match __version__ d with
      | Some (VStr version) =>
          match re.match_ version_pattern version with
          | Some m =>
              t ← comprehension Builtins.int_ (omap id (re.group m [1; 2; 3])%nat);
              Return (Some t)
          | None => Return None
          end
      | Some _ => Raise TypeError
      | None => Return None
      end
  | None => Return None
  end.

End VersionInfo.

Definition _extract_error_code (self : MySQLDialect_mysqlconnector.t)
    (exception : Exc.t) : result value :=
  Exc.get_errno exception.

End MySQLDialect_mysqlconnector_info.

(** The longest prefix of [s] made of characters of the class, and what
    follows it. *)
Fixpoint span (cls : ascii -> bool) (s : string) : string * string :=
  match s with
  | String c s' =>
      if cls c then let (d, r) := span cls s' in (String c d, r)
      else (EmptyString, s)
  | EmptyString => (EmptyString, EmptyString)
  end.

(** Every character of [s] is in the class. *)
Fixpoint all_chars (cls : ascii -> bool) (s : string) : bool :=
  match s with
  | String c s' => cls c && all_chars cls s'
  | EmptyString => true
  end.

(** [s] does not begin with a character of the class. *)
Definition not_starting (cls : ascii -> bool) (s : string) : bool :=
  match s with
  | String c _ => negb (cls c)
  | EmptyString => true
  end.

(** [c] is an ASCII character. *)
Definition is_ascii (c : ascii) : bool := (c <=? "127")%char.

(** The groups of the version pattern, read off the subject from left
    to right with no backtracking: the leading digits, a dot, the
    digits that follow and, when a dot and a digit come next, those
    digits too. *)
Definition version_groups (s : string) : option (list (option string)) :=
  let (d1, r1) := span re.is_digit s in
  match d1, r1 with
  | String _ _, String c1 r1' =>
      if Ascii.eqb "." c1 then
        let (d2, r2) := span re.is_digit r1' in
        match d2 with
        | String _ _ =>
            match r2 with
            | String c2 r2' =>
                if Ascii.eqb "." c2 then
                  let (d3, _) := span re.is_digit r2' in
                  match d3 with
                  | String _ _ => Some [Some d1; Some d2; Some d3]
                  | EmptyString => Some [Some d1; Some d2; None]
                  end
                else Some [Some d1; Some d2; None]
            | EmptyString => Some [Some d1; Some d2; None]
            end
        | EmptyString => None
        end
      else None
  | _, _ => None
  end.

(** A dot and a digit: the start of a third version component. *)
Definition third_component (s : string) : bool :=
  match s with
  | String c s' => Ascii.eqb "." c && negb (not_starting re.is_digit s')
  | EmptyString => false
  end.

(** The fragment of any scalar step, as the comprehension computes it. *)
Definition value_fragment (v : value) : string :=
  if Py.isinstance_int v
  then "[" +:+ Py.str v +:+ "]"
  else "." +:+ quoted (Py.str v).

(** No key of the path holds a quote character. *)
Definition quote_free (p : list PathStep) : Prop :=
  Forall (fun s => match s with
                   | KeyStep k => count_char Py.dquote k = 0%nat
                   | IndexStep _ => True
                   end) p.

(** A quote, a dot and a quote: what separates two keys in a path
    expression. *)
Definition key_separator : string :=
  String Py.dquote (String "." (String Py.dquote EmptyString)).

(** Every occurrence of the character [q] doubled. *)
Fixpoint double_char (q : ascii) (s : string) : string :=
  match s with
  | String c s' =>
      if Ascii.eqb q c then String q (String q (double_char q s'))
      else String c (double_char q s')
  | EmptyString => EmptyString
  end.

(** The flag lookup raises: at the import, at [get_default()] or at
    [FOUND_ROWS]. *)
Definition lookup_raises (import_ClientFlag : result ClientFlag.t) : Prop :=
  match import_ClientFlag with
  | Raise _ => True
  | Return cf =>
      (exists x, ClientFlag.get_default cf = Raise x)
      \/ (exists x, ClientFlag.FOUND_ROWS cf = Raise x)
  end.

(** The value of a declared option converts (an absent option counts
    as converting). *)
Definition converts (to_bool : value -> option bool) (to_int : value -> option Z)
    (opts : gmap string value) (entry : string * pytype) : Prop :=
  match opts !! entry.1 with
  | Some v => is_Some (util.convert to_bool to_int entry.2 v)
  | None => True
  end.

(** A driver module with a given version string. *)
Definition version_of (version : string) (d : DBAPI.t) : option value :=
  Some (VStr version).

(** ** Sample inputs *)

(** A dialect whose driver module is loaded, and one without. *)
Definition connector_module : DBAPI.t :=
  DBAPI.mk "mysql.connector.errors.OperationalError"
           "mysql.connector.errors.InterfaceError".

Definition loaded_dialect : MySQLDialect_mysqlconnector.t :=
  MySQLDialect_mysqlconnector.mk (Some connector_module).

Definition unloaded_dialect : MySQLDialect_mysqlconnector.t :=
  MySQLDialect_mysqlconnector.mk None.

(** The driver's flag constants, for a given default bitmask. *)
Definition client_flag_constants (dflt found_rows : Z) : result ClientFlag.t :=
  Return (ClientFlag.mk (Return dflt) (Return found_rows)).

(** A URL that consists of a query string only. *)
Definition query_url (query : list (string * value)) : URL.t :=
  URL.mk None None None None None (list_to_map query).

(** ** Strings *)

#[local] Arguments append !_ _ : simpl nomatch.

Lemma app_nil_r (s : string) : s +:+ EmptyString = s.
Proof. induction s as [|c s IH]; simpl; [reflexivity | now rewrite IH]. Qed.

Lemma app_assoc (s t u : string) : (s +:+ t) +:+ u = s +:+ (t +:+ u).
Proof. induction s as [|c s IH]; simpl; [reflexivity | now rewrite IH]. Qed.

Lemma length_app (s t : string) :
  String.length (s +:+ t) = (String.length s + String.length t)%nat.
Proof. induction s as [|c s IH]; simpl; [reflexivity | now rewrite IH]. Qed.

Lemma count_char_app (c : ascii) (s t : string) :
  count_char c (s +:+ t) = (count_char c s + count_char c t)%nat.
Proof. induction s as [|d s IH]; simpl; [reflexivity | rewrite IH; lia]. Qed.

Lemma startswith_spec (p s : string) :
  Py.startswith p s = true <-> exists r, s = p +:+ r.
Proof.
  revert s; induction p as [|a p IH]; intros s; simpl.
  - split; [intros _; now exists s | reflexivity].
  - destruct s as [|b s].
    + split; [discriminate | intros [r Hr]; discriminate].
    + rewrite andb_true_iff, Ascii.eqb_eq, IH. split.
      * intros [-> [r ->]]. now exists r.
      * intros [r Hr]. injection Hr as -> ->. split; [reflexivity | now exists r].
Qed.

Lemma contains_spec (needle hay : string) :
  Py.contains needle hay = true <-> occurs needle hay.
Proof.
  unfold occurs. induction hay as [|c hay IH].
  - simpl. rewrite orb_false_r, startswith_spec. split.
    + intros [r Hr]. exists EmptyString, r. exact Hr.
    + intros [a [b Hab]]. destruct a; [now exists b | discriminate].
  - cbn [Py.contains]. rewrite orb_true_iff, startswith_spec, IH. split.
    + intros [[r Hr] | [a [b Hab]]].
      * exists EmptyString, r. exact Hr.
      * exists (String c a), b. simpl. now rewrite Hab.
    + intros [a [b Hab]]. destruct a as [|d a].
      * left. now exists b.
      * right. simpl in Hab. injection Hab as _ Hab. now exists a, b.
Qed.

Lemma contains_false (needle hay : string) :
  Py.contains needle hay = false <-> ~ occurs needle hay.
Proof.
  rewrite <- contains_spec. destruct (Py.contains needle hay); split; congruence.
Qed.

(** ** JSON path formatting *)

(** [str(i)] is a decimal numeral that reads back as [i]. *)
Lemma str_int_decimal (i : Z) : decimal_value (Py.str_int i) = Some i.
Proof.
  unfold decimal_value, Py.str_int.
  rewrite NilZero.isi.
  - simpl. now rewrite DecimalZ.of_to.
  - destruct i; simpl; try discriminate.
    intros H. injection H as H. now apply DecimalPos.Unsigned.to_uint_nonnil in H.
  - destruct i; simpl; try discriminate.
    intros H. injection H as H. now apply DecimalPos.Unsigned.to_uint_nonnil in H.
Qed.

Lemma count_char_quoted (k : string) :
  count_char Py.dquote (quoted k) = (2 + count_char Py.dquote k)%nat.
Proof.
  unfold quoted. cbn [count_char]. rewrite count_char_app. simpl. lia.
Qed.

(** The fragment the comprehension of [JSONPathType._format_value]
    computes for one step. *)
Lemma path_comprehension (p : list PathStep) :
  comprehension
    (fun elem =>
       if Py.isinstance_int elem
       then Py.percent "[%s]" elem
       else Py.percent (String "." (String Py.dquote
              (String "%" (String "s" (String Py.dquote EmptyString)))))
              elem)
    (step_value <$> p)
  = Return (fragment <$> p).
Proof.
  induction p as [|s p IH]; [reflexivity |].
  cbn [fmap list_fmap comprehension]. fold (list_fmap _ _ step_value p).
  change (list_fmap _ _ step_value p) with (step_value <$> p).
  rewrite IH. destruct s; reflexivity.
Qed.

Lemma join_fragments (p : list PathStep) :
  Py.join EmptyString (fragment <$> p) = fragments p.
Proof.
  induction p as [|s p IH]; [reflexivity |].
  cbn [fmap list_fmap Py.join fragments].
  change (list_fmap _ _ fragment p) with (fragment <$> p).
  destruct p as [|s' p].
  - simpl. now rewrite app_nil_r.
  - change ((fragment <$> s' :: p)) with (fragment s' :: (fragment <$> p)) in *.
    cbn [fmap list_fmap]. cbn [fmap list_fmap] in IH.
    rewrite <- IH. reflexivity.
Qed.

Lemma path_format_value (p : list PathStep) :
  JSONPathType._format_value (step_value <$> p) = Return (path_expression p).
Proof.
  unfold JSONPathType._format_value. rewrite path_comprehension.
  cbn [mbind result_bind]. rewrite join_fragments.
  unfold Py.percent, path_expression. simpl. now rewrite app_nil_r.
Qed.

(** C2: for every non-empty path of integer and string steps, full-path
    formatting returns [$] followed by the fragments of the steps in
    input order, [[i]] for an integer step and [."k"] for a string
    step, with nothing in between.  (The path being non-empty is not
    needed for the equation.) *)
Theorem full_path_format (p : list PathStep) :
  p <> [] ->
  JSONPathType._format_value (step_value <$> p)
  = Return (String "$" (fragments p)).
Proof. intros _. apply path_format_value. Qed.

Lemma full_path_format_witness :
  [IndexStep 1; KeyStep "a"; IndexStep 0] <> []
  /\ JSONPathType._format_value [VInt 1; VStr "a"; VInt 0]
     = Return ("$[1]." +:+ quoted "a" +:+ "[0]").
Proof.
  split; [discriminate |].
  apply (full_path_format [IndexStep 1; KeyStep "a"; IndexStep 0]).
  discriminate.
Defined.

(** C3: for every integer [i], single-step index formatting returns
    [$[i]] with [i] written as the decimal numeral that denotes it; for
    every string [k] with no quote character it returns [$."k"], a
    string with exactly the two delimiting quote characters. *)
Theorem index_format (i : Z) (k : string) :
  (JSONIndexType._format_value (VInt i) = Return ("$[" +:+ Py.str_int i +:+ "]")
   /\ decimal_value (Py.str_int i) = Some i)
  /\ (count_char Py.dquote k = 0%nat ->
      JSONIndexType._format_value (VStr k) = Return ("$." +:+ quoted k)
      /\ count_char Py.dquote ("$." +:+ quoted k) = 2%nat).
Proof.
  split; [split |].
  - reflexivity.
  - apply str_int_decimal.
  - intros Hk. split.
    + reflexivity.
    + change ("$." +:+ quoted k) with (String "$" (String "." (quoted k))).
      cbn [count_char]. rewrite count_char_quoted, Hk. reflexivity.
Qed.

Lemma index_format_witness :
  count_char Py.dquote "key" = 0%nat
  /\ JSONIndexType._format_value (VInt (-42)) = Return "$[-42]"
  /\ JSONIndexType._format_value (VStr "key") = Return ("$." +:+ quoted "key").
Proof.
  split; [reflexivity |].
  split.
  - exact (proj1 (proj1 (index_format (-42) "key"))).
  - exact (proj1 (proj2 (index_format (-42) "key") eq_refl)).
Defined.

(** A path of one step formats as the single-step index accessor does. *)
Lemma single_step_path (s : PathStep) :
  JSONPathType._format_value [step_value s]
  = JSONIndexType._format_value (step_value s).
Proof.
  change [step_value s] with (step_value <$> [s]).
  rewrite path_format_value. unfold path_expression. cbn [fragments].
  rewrite app_nil_r. now destruct s.
Qed.

(** C10: on the empty path full-path formatting raises nothing and
    returns the one-character string [$]. *)
Theorem full_path_format_empty :
  JSONPathType._format_value [] = Return "$"
  /\ String.length "$" = 1%nat.
Proof. split; reflexivity. Qed.

(** ** The modulo operator *)

(** C8: for every pair of rendered operand strings [x] and [y], the
    modulo rewrite returns [x], a space, one percent sign, a space and
    [y]: the rewrite adds exactly one percent sign and no parenthesis
    to what the operands contain. *)
Theorem visit_mod_binary_infix (expr kwargs : Type)
    (process : expr -> kwargs -> result string)
    (binary : MySQLCompiler_mysqlconnector.BinaryExpression expr)
    (operator : value) (kw : kwargs) (x y : string) :
  process (MySQLCompiler_mysqlconnector.left binary) kw = Return x ->
  process (MySQLCompiler_mysqlconnector.right binary) kw = Return y ->
  exists out,
    MySQLCompiler_mysqlconnector.visit_mod_binary expr kwargs process
      binary operator kw = Return out
    /\ out = x +:+ String " " (String "%" (String " " y))
    /\ String.length out = (String.length x + 3 + String.length y)%nat
    /\ count_char "%" out = (count_char "%" x + 1 + count_char "%" y)%nat
    /\ count_char "(" out = (count_char "(" x + count_char "(" y)%nat
    /\ count_char ")" out = (count_char ")" x + count_char ")" y)%nat.
Proof.
  intros Hx Hy. exists (x +:+ " % " +:+ y).
  unfold MySQLCompiler_mysqlconnector.visit_mod_binary.
  rewrite Hx. cbn [mbind result_bind]. rewrite Hy. cbn [mbind result_bind].
  split; [reflexivity |]. split; [reflexivity |].
  rewrite length_app, !count_char_app. simpl. repeat split; lia.
Qed.

Lemma visit_mod_binary_infix_witness :
  Return "x" = Return "x" /\ Return "y" = Return "y"
  /\ MySQLCompiler_mysqlconnector.visit_mod_binary string unit
       (fun e _ => Return e) (MySQLCompiler_mysqlconnector.mk "x" "y") VNone tt
     = Return "x % y".
Proof.
  split; [reflexivity |]. split; [reflexivity |].
  destruct (visit_mod_binary_infix string unit (fun e _ => Return e)
              (MySQLCompiler_mysqlconnector.mk "x" "y") VNone tt "x" "y"
              eq_refl eq_refl) as [out [Hout [-> _]]].
  exact Hout.
Defined.

(** ** The identifier preparer *)

Lemma replace_from_skip (old new x b : string) :
  Py.replace_from old new (String.length x) (x +:+ b)
  = Py.replace_from old new 0 b.
Proof. induction x as [|c x IH]; [reflexivity | exact IH]. Qed.

Lemma replace_from_match (old new b : string) :
  old <> EmptyString ->
  Py.replace_from old new 0 (old +:+ b) = new +:+ Py.replace_from old new 0 b.
Proof.
  intros Hne. destruct old as [|c old']; [congruence |].
  cbn [append Py.replace_from].
  assert (Hs : Py.startswith (String c old') (String c (old' +:+ b)) = true).
  { apply startswith_spec. now exists b. }
  rewrite Hs. cbn [String.length Nat.pred]. now rewrite replace_from_skip.
Qed.

Lemma not_occurs_empty (old : string) : old <> EmptyString -> ~ occurs old EmptyString.
Proof.
  intros Hne [a [b Hab]]. destruct a; [destruct old |]; simpl in Hab; congruence.
Qed.

Lemma replace_from_replaced (old new : string) (n : nat) (s : string) :
  old <> EmptyString ->
  (String.length s <= n)%nat ->
  replaced old new s (Py.replace_from old new 0 s).
Proof.
  intros Hne. revert s. induction n as [|n IH]; intros s Hlen.
  - destruct s; [| simpl in Hlen; lia].
    apply replaced_done, not_occurs_empty, Hne.
  - destruct s as [|c s'].
    { apply replaced_done, not_occurs_empty, Hne. }
    destruct (Py.startswith old (String c s')) eqn:Hs.
    + apply startswith_spec in Hs as [b Hb]. rewrite Hb.
      rewrite replace_from_match by exact Hne.
      apply (replaced_step old new EmptyString b).
      * intros a' b' _. simpl. lia.
      * apply IH. apply (f_equal String.length) in Hb.
        rewrite length_app in Hb. simpl in Hb, Hlen.
        destruct old; [congruence | simpl in Hb; lia].
    + cbn [Py.replace_from]. rewrite Hs.
      assert (Hrec : replaced old new s' (Py.replace_from old new 0 s')).
      { apply IH. simpl in Hlen. lia. }
      remember (Py.replace_from old new 0 s') as out eqn:Eout. clear Eout.
      inversion Hrec as [s0 Hno Hs0 Hr0 | a b r Hleft Hb Ha Hr].
      * rewrite Hr0 in Hs. apply replaced_done.
        intros [a [b Hab]]. destruct a as [|d a].
        -- assert (Py.startswith old (String c out) = true)
             by (apply startswith_spec; now exists b).
           congruence.
        -- simpl in Hab. injection Hab as _ Hab. apply Hno. now exists a, b.
      * apply (replaced_step old new (String c a) b r); [| exact Hb].
        intros a' b' Heq. destruct a' as [|d a'].
        -- assert (Py.startswith old (String c s') = true).
           { apply startswith_spec. exists b'. rewrite <- Ha. exact Heq. }
           congruence.
        -- simpl in Heq. injection Heq as _ Heq. apply Hleft in Heq.
           simpl. lia.
Qed.

Lemma replace_replaced (old new s : string) :
  old <> EmptyString -> replaced old new s (Py.replace old new s).
Proof.
  intros Hne. unfold Py.replace. destruct old eqn:E; [congruence |].
  rewrite <- E in *. now apply (replace_from_replaced old new (String.length s)).
Qed.

Lemma replaced_count_char (old new : string) (c : ascii) (s r : string) :
  count_char c old = 0%nat -> count_char c new = 0%nat ->
  replaced old new s r -> count_char c r = count_char c s.
Proof.
  intros Ho Hn H. induction H as [s _ | a b r _ _ IH]; [reflexivity |].
  rewrite !count_char_app, Ho, Hn, IH. reflexivity.
Qed.


(** C9: the override reports false for percent doubling, whatever is
    assigned to the property; escaping an identifier replaces every
    occurrence of the configured quote-escape sequence by its escaped
    form and keeps every other character, so that the percent signs of
    the identifier are left as they are when neither sequence has one. *)
Theorem identifier_escaper (self : MySQLIdentifierPreparer_mysqlconnector.t)
    (assigned : bool) (value : string) :
  let escape_quote := MySQLIdentifierPreparer_mysqlconnector.escape_quote self in
  let escape_to_quote := MySQLIdentifierPreparer_mysqlconnector.escape_to_quote self in
  let escaped := MySQLIdentifierPreparer_mysqlconnector._escape_identifier self value in
  MySQLIdentifierPreparer_mysqlconnector._double_percents self = false
  /\ MySQLIdentifierPreparer_mysqlconnector._double_percents
       (MySQLIdentifierPreparer_mysqlconnector.set__double_percents self assigned)
     = false
  /\ (escape_quote <> EmptyString ->
      replaced escape_quote escape_to_quote value escaped
      /\ (count_char "%" escape_quote = 0%nat ->
          count_char "%" escape_to_quote = 0%nat ->
          count_char "%" escaped = count_char "%" value)).
Proof.
  cbv zeta. split; [reflexivity |]. split; [reflexivity |].
  intros Hne.
  assert (H := replace_replaced
                 (MySQLIdentifierPreparer_mysqlconnector.escape_quote self)
                 (MySQLIdentifierPreparer_mysqlconnector.escape_to_quote self)
                 value Hne).
  split; [exact H |].
  intros Ho Hn. now apply (replaced_count_char _ _ _ _ _ Ho Hn).
Qed.

Lemma identifier_escaper_witness :
  "`" <> EmptyString
  /\ count_char "%" "`" = 0%nat
  /\ count_char "%" "``" = 0%nat
  /\ replaced "`" "``" "a`b%c"
       (MySQLIdentifierPreparer_mysqlconnector._escape_identifier
          (MySQLIdentifierPreparer_mysqlconnector.mk "`" "``") "a`b%c")
  /\ count_char "%"
       (MySQLIdentifierPreparer_mysqlconnector._escape_identifier
          (MySQLIdentifierPreparer_mysqlconnector.mk "`" "``") "a`b%c")
     = count_char "%" "a`b%c".
Proof.
  assert (Hne : "`" <> EmptyString) by discriminate.
  split; [exact Hne |]. split; [reflexivity |]. split; [reflexivity |].
  destruct (identifier_escaper
              (MySQLIdentifierPreparer_mysqlconnector.mk "`" "``") true "a`b%c")
    as [_ [_ H]].
  destruct (H Hne) as [Hr Hc]. split; [exact Hr | exact (Hc eq_refl eq_refl)].
Defined.

(** ** The health classifier *)

Lemma in_tuple_ints (c : Z) (l : list Z) :
  Py.in_tuple (VInt c) (VInt <$> l) = true <-> In c l.
Proof.
  unfold Py.in_tuple. induction l as [|x l IH]; simpl.
  - split; [discriminate | tauto].
  - rewrite orb_true_iff, IH, Z.eqb_eq. split; intros [H | H]; auto.
Qed.

Lemma is_disconnect_unrecognized (self : MySQLDialect_mysqlconnector.t)
    (d : DBAPI.t) (e : Exc.t) (connection cursor : value) :
  MySQLDialect_mysqlconnector.dbapi self = Some d ->
  recognized d e = false ->
  MySQLDialect_mysqlconnector.is_disconnect self e connection cursor = Return false.
Proof.
  unfold recognized, MySQLDialect_mysqlconnector.is_disconnect.
  intros -> Hr. cbn [mbind result_bind]. now rewrite Hr.
Qed.

(** What the classifier does on an instance of a recognized category,
    step by step. *)
Lemma is_disconnect_recognized (self : MySQLDialect_mysqlconnector.t)
    (d : DBAPI.t) (e : Exc.t) (connection cursor : value) :
  MySQLDialect_mysqlconnector.dbapi self = Some d ->
  recognized d e = true ->
  MySQLDialect_mysqlconnector.is_disconnect self e connection cursor =
  match Exc.errno e with
  | None => Raise AttributeError
  | Some errno =>
      if Py.in_tuple errno (VInt <$> MySQLDialect_mysqlconnector.errnos)
      then Return true
      else match Exc.message e with
           | Return s => Return (Py.contains phrase1 s || Py.contains phrase2 s)
           | Raise x => Raise x
           end
  end.
Proof.
  unfold recognized, MySQLDialect_mysqlconnector.is_disconnect.
  intros -> Hr. cbn [mbind result_bind]. rewrite Hr.
  unfold Exc.get_errno. destruct (Exc.errno e) as [errno|]; [| reflexivity].
  cbn [mbind result_bind].
  destruct (Py.in_tuple errno _); [reflexivity |].
  destruct (Exc.message e) as [s|x]; [| reflexivity].
  cbn [mbind result_bind]. fold phrase1 phrase2.
  now destruct (Py.contains phrase1 s).
Qed.

(** C1: with the driver loaded, on an instance of its OperationalError
    or InterfaceError that carries a numeric error code and a message,
    the classifier returns true exactly when the code is one of 2006,
    2013, 2014, 2045, 2055, 2048 or the message contains one of the two
    phrases; on any other exception it returns false. *)
Theorem is_disconnect_classifies (self : MySQLDialect_mysqlconnector.t)
    (d : DBAPI.t) (e : Exc.t) (connection cursor : value) :
  MySQLDialect_mysqlconnector.dbapi self = Some d ->
  (Exc.isinstance e [DBAPI.OperationalError d; DBAPI.InterfaceError d] = true ->
   forall (code : Z) (msg : string),
     Exc.errno e = Some (VInt code) ->
     Exc.message e = Return msg ->
     exists b,
       MySQLDialect_mysqlconnector.is_disconnect self e connection cursor = Return b
       /\ (b = true <->
           In code [2006; 2013; 2014; 2045; 2055; 2048]
           \/ occurs "MySQL Connection not available." msg
           \/ occurs "Connection to MySQL is not available" msg))
  /\ (Exc.isinstance e [DBAPI.OperationalError d; DBAPI.InterfaceError d] = false ->
      MySQLDialect_mysqlconnector.is_disconnect self e connection cursor
      = Return false).
Proof.
  intros Hd. split.
  - intros Hr code msg Hcode Hmsg.
    rewrite (is_disconnect_recognized self d e connection cursor Hd Hr), Hcode, Hmsg.
    pose proof (in_tuple_ints code MySQLDialect_mysqlconnector.errnos) as Hcodes.
    pose proof (contains_spec phrase1 msg) as H1.
    pose proof (contains_spec phrase2 msg) as H2.
    change MySQLDialect_mysqlconnector.errnos
      with [2006; 2013; 2014; 2045; 2055; 2048] in Hcodes at 2.
    unfold phrase1 in H1 at 2. unfold phrase2 in H2 at 2.
    destruct (Py.in_tuple (VInt code) _) eqn:Hin.
    + exists true. split; [reflexivity | tauto].
    + exists (Py.contains phrase1 msg || Py.contains phrase2 msg).
      split; [reflexivity |]. rewrite orb_true_iff. intuition congruence.
  - apply is_disconnect_unrecognized, Hd.
Qed.

Lemma is_disconnect_classifies_witness :
  let d := DBAPI.mk "OperationalError" "InterfaceError" in
  let self := MySQLDialect_mysqlconnector.mk (Some d) in
  let e := Exc.mk ["InterfaceError"; "Error"] (Some (VInt 9999))
             (Return "2055: Connection to MySQL is not available") in
  MySQLDialect_mysqlconnector.dbapi self = Some d
  /\ Exc.isinstance e [DBAPI.OperationalError d; DBAPI.InterfaceError d] = true
  /\ Exc.errno e = Some (VInt 9999)
  /\ Exc.message e = Return "2055: Connection to MySQL is not available"
  /\ MySQLDialect_mysqlconnector.is_disconnect self e VNone VNone = Return true.
Proof.
  cbv zeta. repeat (split; [reflexivity |]).
  destruct (is_disconnect_classifies
              (MySQLDialect_mysqlconnector.mk
                 (Some (DBAPI.mk "OperationalError" "InterfaceError")))
              (DBAPI.mk "OperationalError" "InterfaceError")
              (Exc.mk ["InterfaceError"; "Error"] (Some (VInt 9999))
                 (Return "2055: Connection to MySQL is not available"))
              VNone VNone eq_refl) as [H _].
  destruct (H eq_refl 9999 "2055: Connection to MySQL is not available"
              eq_refl eq_refl) as [b [Hb Hiff]].
  rewrite Hb. f_equal. apply Hiff. right. right.
  exists "2055: ", EmptyString. reflexivity.
Defined.

(** C6, as the code has it: with the driver loaded the classifier
    returns false on an exception outside the recognized categories;
    on an instance of a recognized category it returns when the errno
    attribute is present and either the code is a fatal one or the
    message can be extracted.  A missing errno attribute raises
    AttributeError and a failing message extraction propagates: neither
    degrades to false. *)
Theorem is_disconnect_completion (self : MySQLDialect_mysqlconnector.t)
    (d : DBAPI.t) (e : Exc.t) (connection cursor : value) :
  MySQLDialect_mysqlconnector.dbapi self = Some d ->
  let answer := MySQLDialect_mysqlconnector.is_disconnect self e connection cursor in
  let fatal v := Py.in_tuple v (VInt <$> MySQLDialect_mysqlconnector.errnos) in
  (recognized d e = false -> answer = Return false)
  /\ (recognized d e = true ->
      forall v, Exc.errno e = Some v ->
        (fatal v = true -> answer = Return true)
        /\ (forall msg, Exc.message e = Return msg -> exists b, answer = Return b)
        /\ (forall x, fatal v = false -> Exc.message e = Raise x -> answer = Raise x))
  /\ (recognized d e = true -> Exc.errno e = None -> answer = Raise AttributeError).
Proof.
  intros Hd. cbv zeta. split; [| split].
  - apply is_disconnect_unrecognized, Hd.
  - intros Hr v Hv.
    rewrite (is_disconnect_recognized self d e connection cursor Hd Hr), Hv.
    split; [| split].
    + now intros ->.
    + intros msg ->. destruct (Py.in_tuple v _); eauto.
    + now intros x -> ->.
  - intros Hr Hv.
    now rewrite (is_disconnect_recognized self d e connection cursor Hd Hr), Hv.
Qed.

Lemma is_disconnect_completion_witness :
  let d := DBAPI.mk "OperationalError" "InterfaceError" in
  let self := MySQLDialect_mysqlconnector.mk (Some d) in
  let e := Exc.mk ["OperationalError"; "Error"] None (Return "Lost connection") in
  MySQLDialect_mysqlconnector.dbapi self = Some d
  /\ recognized d e = true
  /\ Exc.errno e = None
  /\ MySQLDialect_mysqlconnector.is_disconnect self e VNone VNone
     = Raise AttributeError.
Proof.
  cbv zeta. repeat (split; [reflexivity |]).
  exact (proj2 (proj2 (is_disconnect_completion
           (MySQLDialect_mysqlconnector.mk
              (Some (DBAPI.mk "OperationalError" "InterfaceError")))
           (DBAPI.mk "OperationalError" "InterfaceError")
           (Exc.mk ["OperationalError"; "Error"] None (Return "Lost connection"))
           VNone VNone eq_refl)) eq_refl eq_refl).
Defined.

(** C6 as stated fails: an OperationalError instance without an errno
    attribute makes the classifier raise AttributeError. *)
Lemma never_raises_fails : ~ never_raises.
Proof.
  intros H.
  destruct (H (MySQLDialect_mysqlconnector.mk
                 (Some (DBAPI.mk "OperationalError" "InterfaceError")))
              (DBAPI.mk "OperationalError" "InterfaceError")
              (Exc.mk ["OperationalError"; "Error"] None (Return "Lost connection"))
              VNone VNone eq_refl eq_refl) as [b [Hb _]].
  discriminate Hb.
Qed.

(** ** Connect-argument coercion *)

Section Coercer.

Variable to_bool : value -> option bool.
Variable to_int : value -> option Z.

Lemma coerce_kw_type_other (kw out : gmap string value) (key k : string)
    (type_ : pytype) :
  util.coerce_kw_type to_bool to_int kw key type_ = Return out ->
  k <> key -> out !! k = kw !! k.
Proof.
  unfold util.coerce_kw_type. intros H Hne.
  destruct (kw !! key) as [v|]; [| now injection H as <-].
  destruct (util.convert to_bool to_int type_ v); [| discriminate].
  injection H as <-. now rewrite lookup_insert_ne.
Qed.

Lemma coerce_kw_type_key (kw out : gmap string value) (key : string)
    (type_ : pytype) :
  util.coerce_kw_type to_bool to_int kw key type_ = Return out ->
  match kw !! key with
  | None => out !! key = None
  | Some v => exists v', util.convert to_bool to_int type_ v = Some v'
                         /\ out !! key = Some v'
  end.
Proof.
  unfold util.coerce_kw_type. intros H.
  destruct (kw !! key) as [v|] eqn:Hk; [| now injection H as <-].
  destruct (util.convert to_bool to_int type_ v) as [v'|]; [| discriminate].
  injection H as <-. exists v'. now rewrite lookup_insert_eq.
Qed.

Lemma coerce_kw_type_raise (kw : gmap string value) (key : string)
    (type_ : pytype) (e : pyexc) :
  util.coerce_kw_type to_bool to_int kw key type_ = Raise e ->
  e = ConfigurationError key
  /\ exists v, kw !! key = Some v /\ util.convert to_bool to_int type_ v = None.
Proof.
  unfold util.coerce_kw_type. intros H.
  destruct (kw !! key) as [v|]; [| discriminate].
  destruct (util.convert to_bool to_int type_ v) eqn:Hc; [discriminate |].
  injection H as <-. eauto.
Qed.

Lemma coerce_each_other (sch : list (string * pytype))
    (opts out : gmap string value) (k : string) :
  coerce_each to_bool to_int sch opts = Return out ->
  k ∉ sch.*1 -> out !! k = opts !! k.
Proof.
  revert opts. induction sch as [|[key ty] sch IH]; intros opts H Hk.
  - now injection H as <-.
  - cbn [coerce_each] in H. rewrite fmap_cons, not_elem_of_cons in Hk.
    destruct Hk as [Hne Hk]. cbn [fst] in Hne.
    destruct (util.coerce_kw_type to_bool to_int opts key ty) as [o|] eqn:Hc;
      [| discriminate].
    cbn [mbind result_bind] in H.
    rewrite (IH o H Hk). now apply (coerce_kw_type_other _ _ _ _ _ Hc).
Qed.

Lemma coerce_each_key (sch : list (string * pytype))
    (opts out : gmap string value) (k : string) (ty : pytype) :
  NoDup sch.*1 ->
  coerce_each to_bool to_int sch opts = Return out ->
  (k, ty) ∈ sch ->
  match opts !! k with
  | None => out !! k = None
  | Some v => exists v', util.convert to_bool to_int ty v = Some v'
                         /\ out !! k = Some v'
  end.
Proof.
  revert opts. induction sch as [|[key ty'] sch IH]; intros opts Hnd H Hin.
  - now apply elem_of_nil in Hin.
  - cbn [coerce_each] in H. rewrite fmap_cons, NoDup_cons in Hnd.
    destruct Hnd as [Hfresh Hnd]. cbn [fst] in Hfresh.
    destruct (util.coerce_kw_type to_bool to_int opts key ty') as [o|] eqn:Hc;
      [| discriminate].
    cbn [mbind result_bind] in H.
    apply elem_of_cons in Hin as [Heq | Hin].
    + injection Heq as -> ->.
      rewrite (coerce_each_other sch o out key H Hfresh).
      now apply coerce_kw_type_key.
    + assert (Hne : k <> key).
      { intros ->. apply Hfresh. apply list_elem_of_fmap. now exists (key, ty). }
      rewrite <- (coerce_kw_type_other _ _ _ _ _ Hc Hne).
      now apply IH.
Qed.

Lemma coerce_each_raise (sch : list (string * pytype))
    (opts : gmap string value) (e : pyexc) :
  NoDup sch.*1 ->
  coerce_each to_bool to_int sch opts = Raise e ->
  exists k ty v, (k, ty) ∈ sch /\ opts !! k = Some v
                 /\ util.convert to_bool to_int ty v = None
                 /\ e = ConfigurationError k.
Proof.
  revert opts. induction sch as [|[key ty'] sch IH]; intros opts Hnd H.
  - discriminate.
  - cbn [coerce_each] in H. rewrite fmap_cons, NoDup_cons in Hnd.
    destruct Hnd as [Hfresh Hnd]. cbn [fst] in Hfresh.
    destruct (util.coerce_kw_type to_bool to_int opts key ty') as [o|x] eqn:Hc;
      cbn [mbind result_bind] in H.
    + destruct (IH o Hnd H) as (k & ty & v & Hin & Hk & Hconv & ->).
      exists k, ty, v. split; [now apply list_elem_of_further |].
      split; [| easy].
      assert (Hne : k <> key).
      { intros ->. apply Hfresh. apply list_elem_of_fmap. now exists (key, ty). }
      now rewrite <- (coerce_kw_type_other _ _ _ _ _ Hc Hne).
    + injection H as <-.
      apply coerce_kw_type_raise in Hc as [-> [v [Hv Hconv]]].
      exists key, ty', v. split; [apply list_elem_of_here | easy].
Qed.

(** The seventeen calls are the declared schema applied in order. *)
Lemma coerce_opts_each (opts : gmap string value) :
  MySQLDialect_mysqlconnector.coerce_opts to_bool to_int opts
  = coerce_each to_bool to_int declared_types opts.
Proof.
  unfold MySQLDialect_mysqlconnector.coerce_opts, declared_types.
  cbn [coerce_each].
  repeat match goal with
         | |- mbind _ ?m = mbind _ ?m =>
             destruct m; cbn [mbind result_bind]; [| reflexivity]
         end.
  match goal with |- ?m = _ => now destruct m end.
Qed.

End Coercer.

Lemma declared_types_NoDup : NoDup declared_types.*1.
Proof. apply (bool_decide_unpack (NoDup declared_types.*1)). vm_compute. exact I. Qed.

Lemma declared_types_keys (k : string) (ty : pytype) :
  (k, ty) ∈ declared_types <->
  (ty = py_bool /\ k ∈ boolean_keys) \/ (ty = py_int /\ k ∈ integer_keys).
Proof.
  unfold declared_types, boolean_keys, integer_keys.
  rewrite !elem_of_cons, !elem_of_nil. split.
  - intros H.
    repeat (destruct H as [H | H];
            [injection H as -> ->; (left + right); split; [reflexivity | tauto] |]).
    contradiction.
  - intros [[-> H] | [-> H]];
      repeat (destruct H as [-> | H]; [tauto |]); contradiction.
Qed.

Lemma declared_types_fst (k : string) :
  k ∈ declared_types.*1 <-> k ∈ boolean_keys \/ k ∈ integer_keys.
Proof.
  rewrite list_elem_of_fmap. split.
  - intros [[k' ty] [-> H]]. apply declared_types_keys in H. tauto.
  - intros [H | H].
    + exists (k, py_bool). split; [reflexivity |]. apply declared_types_keys. tauto.
    + exists (k, py_int). split; [reflexivity |]. apply declared_types_keys. tauto.
Qed.

Lemma setdefault_other (opts : gmap string value) (key k : string) (v : value) :
  k <> key ->
  MySQLDialect_mysqlconnector.setdefault opts key v !! k = opts !! k.
Proof.
  intros Hne. unfold MySQLDialect_mysqlconnector.setdefault.
  destruct (opts !! key); [reflexivity | now rewrite lookup_insert_ne].
Qed.

Lemma setdefault_key (opts : gmap string value) (key : string) (v : value) :
  MySQLDialect_mysqlconnector.setdefault opts key v !! key
  = Some (default v (opts !! key)).
Proof.
  unfold MySQLDialect_mysqlconnector.setdefault.
  destruct (opts !! key) eqn:H; [exact H | now rewrite lookup_insert_eq].
Qed.

Lemma setdefault_present (opts : gmap string value) (key k : string) (v x : value) :
  opts !! k = Some x ->
  MySQLDialect_mysqlconnector.setdefault opts key v !! k = Some x.
Proof.
  intros H. destruct (decide (k = key)) as [-> | Hne].
  - now rewrite setdefault_key, H.
  - now rewrite setdefault_other.
Qed.

Lemma merge_found_rows_other (import_ClientFlag : result ClientFlag.t)
    (opts out : gmap string value) (k : string) :
  MySQLDialect_mysqlconnector.merge_found_rows import_ClientFlag opts = Return out ->
  k <> "client_flags" -> out !! k = opts !! k.
Proof.
  unfold MySQLDialect_mysqlconnector.merge_found_rows. intros H Hne.
  destruct import_ClientFlag as [cf|]; [| discriminate].
  cbn [mbind result_bind] in H.
  destruct (ClientFlag.get_default cf); [| discriminate].
  cbn [mbind result_bind] in H.
  destruct (ClientFlag.FOUND_ROWS cf); [| discriminate].
  cbn [mbind result_bind] in H.
  destruct (Py.bor _ _); [| discriminate].
  injection H as <-. now rewrite lookup_insert_ne.
Qed.

(** The merge on an absent or integer-valued [client_flags] option. *)
Lemma merge_found_rows_int (cf : ClientFlag.t) (opts : gmap string value)
    (dflt found_rows flags : Z) :
  ClientFlag.get_default cf = Return dflt ->
  ClientFlag.FOUND_ROWS cf = Return found_rows ->
  Py.as_int (default (VInt dflt) (opts !! "client_flags")) = Some flags ->
  MySQLDialect_mysqlconnector.merge_found_rows (Return cf) opts
  = Return (<["client_flags" := VInt (Z.lor flags found_rows)]> opts).
Proof.
  unfold MySQLDialect_mysqlconnector.merge_found_rows. intros Hd Hf H.
  cbn [mbind result_bind]. rewrite Hd. cbn [mbind result_bind].
  rewrite Hf. cbn [mbind result_bind]. unfold Py.bor.
  destruct (opts !! "client_flags"); unfold default, from_option, id in H;
    now rewrite H.
Qed.

(** On any other [client_flags] value the [|=] raises. *)
Lemma merge_found_rows_not_int (cf : ClientFlag.t) (opts : gmap string value)
    (v : value) :
  opts !! "client_flags" = Some v ->
  Py.as_int v = None ->
  exists e, MySQLDialect_mysqlconnector.merge_found_rows (Return cf) opts = Raise e.
Proof.
  unfold MySQLDialect_mysqlconnector.merge_found_rows. intros -> H.
  cbn [mbind result_bind].
  destruct (ClientFlag.get_default cf); [| eauto].
  cbn [mbind result_bind].
  destruct (ClientFlag.FOUND_ROWS cf); [| eauto].
  cbn [mbind result_bind]. unfold Py.bor. rewrite H. eauto.
Qed.

Section ConnectArgs.

Variable to_bool : value -> option bool.
Variable to_int : value -> option Z.
Variable import_ClientFlag : result ClientFlag.t.

Abbreviation create_connect_args :=
  (MySQLDialect_mysqlconnector.create_connect_args to_bool to_int import_ClientFlag).

(** The result in terms of its three stages. *)
Lemma create_connect_args_stages (self : MySQLDialect_mysqlconnector.t)
    (url : URL.t) :
  create_connect_args self url =
  match coerce_each to_bool to_int declared_types
          (MySQLDialect_mysqlconnector.url_opts url) with
  | Raise e => Raise e
  | Return coerced =>
      let opts := MySQLDialect_mysqlconnector.setdefault coerced "buffered"
                    (VBool true) in
      Return ([], match MySQLDialect_mysqlconnector.dbapi self with
                  | Some _ =>
                      match MySQLDialect_mysqlconnector.merge_found_rows
                              import_ClientFlag opts with
                      | Return merged => merged
                      | Raise _ => opts
                      end
                  | None => opts
                  end)
  end.
Proof.
  unfold MySQLDialect_mysqlconnector.create_connect_args.
  rewrite coerce_opts_each.
  destruct (coerce_each _ _ _ _) as [coerced|]; [| reflexivity].
  cbn [mbind result_bind].
  destruct (MySQLDialect_mysqlconnector.dbapi self); [| reflexivity].
  now destruct (MySQLDialect_mysqlconnector.merge_found_rows _ _).
Qed.

Lemma create_connect_args_return (self : MySQLDialect_mysqlconnector.t)
    (url : URL.t) (args : list value) (out : gmap string value) :
  create_connect_args self url = Return (args, out) ->
  exists coerced,
    coerce_each to_bool to_int declared_types
      (MySQLDialect_mysqlconnector.url_opts url) = Return coerced
    /\ args = []
    /\ forall k, k <> "client_flags" ->
         out !! k = MySQLDialect_mysqlconnector.setdefault coerced "buffered"
                      (VBool true) !! k.
Proof.
  rewrite create_connect_args_stages.
  destruct (coerce_each _ _ _ _) as [coerced|]; [| discriminate].
  cbv zeta. intros H. injection H as <- <-. exists coerced.
  split; [reflexivity |]. split; [reflexivity |]. intros k Hk.
  destruct (MySQLDialect_mysqlconnector.dbapi self); [| reflexivity].
  destruct (MySQLDialect_mysqlconnector.merge_found_rows _ _) eqn:Hm;
    [| reflexivity].
  now apply (merge_found_rows_other _ _ _ _ Hm).
Qed.

End ConnectArgs.

Lemma client_flags_undeclared :
  ("client_flags" ∉ boolean_keys) /\ ("client_flags" ∉ integer_keys).
Proof.
  split; apply (bool_decide_unpack (_ ∉ _)); vm_compute; exact I.
Qed.

Lemma buffered_boolean : "buffered" ∈ boolean_keys.
Proof. apply (bool_decide_unpack (_ ∈ _)). vm_compute. exact I. Qed.

(** When connect-argument coercion returns, the positional arguments
    are empty; every declared boolean key of the input holds the
    boolean its value converts to and every declared integer key the
    integer its value converts to; every key other than [client_flags]
    outside the declared schema is as in the input; and [buffered] is
    true when the input has no [buffered] key. *)
Lemma connect_args_coercion (to_bool : value -> option bool)
    (to_int : value -> option Z) (import_ClientFlag : result ClientFlag.t)
    (self : MySQLDialect_mysqlconnector.t) (url : URL.t)
    (args : list value) (out : gmap string value) :
  MySQLDialect_mysqlconnector.create_connect_args to_bool to_int
    import_ClientFlag self url = Return (args, out) ->
  let opts := MySQLDialect_mysqlconnector.url_opts url in
  args = []
  /\ (forall k v, k ∈ boolean_keys -> opts !! k = Some v ->
        exists b, to_bool v = Some b /\ out !! k = Some (VBool b))
  /\ (forall k v, k ∈ integer_keys -> opts !! k = Some v ->
        exists n, to_int v = Some n /\ out !! k = Some (VInt n))
  /\ (forall k, k ∉ boolean_keys -> k ∉ integer_keys -> k <> "client_flags" ->
        out !! k = opts !! k)
  /\ (opts !! "buffered" = None -> out !! "buffered" = Some (VBool true)).
Proof.
  intros H. cbv zeta.
  apply create_connect_args_return in H as (coerced & Hc & -> & Hout).
  destruct client_flags_undeclared as [Hcb Hci].
  assert (Hkey : forall k ty v,
             declared k ty ->
             MySQLDialect_mysqlconnector.url_opts url !! k = Some v ->
             exists v', util.convert to_bool to_int ty v = Some v'
                        /\ out !! k = Some v').
  { intros k ty v Hd Hv.
    pose proof (coerce_each_key to_bool to_int declared_types _ coerced k ty
                  declared_types_NoDup Hc (proj2 (declared_types_keys k ty) Hd))
      as Hk.
    rewrite Hv in Hk. destruct Hk as [v' [Hconv Hk]].
    exists v'. split; [exact Hconv |].
    rewrite Hout.
    - now apply setdefault_present.
    - intros ->. destruct Hd as [[_ Hd] | [_ Hd]]; tauto. }
  split; [reflexivity |]. split; [| split; [| split]].
  - intros k v Hk Hv.
    destruct (Hkey k py_bool v (or_introl (conj eq_refl Hk)) Hv) as [v' [Hconv Hv']].
    cbn [util.convert] in Hconv. destruct (to_bool v) as [b|]; [| discriminate].
    injection Hconv as <-. eauto.
  - intros k v Hk Hv.
    destruct (Hkey k py_int v (or_intror (conj eq_refl Hk)) Hv) as [v' [Hconv Hv']].
    cbn [util.convert] in Hconv. destruct (to_int v) as [n|]; [| discriminate].
    injection Hconv as <-. eauto.
  - intros k Hb Hi Hcf. rewrite (Hout k Hcf).
    rewrite setdefault_other by (intros ->; apply Hb, buffered_boolean).
    apply (coerce_each_other to_bool to_int declared_types _ _ k Hc).
    rewrite declared_types_fst. tauto.
  - intros Hbuf. rewrite Hout by discriminate.
    rewrite setdefault_key.
    pose proof (coerce_each_key to_bool to_int declared_types _ coerced
                  "buffered" py_bool declared_types_NoDup Hc
                  (proj2 (declared_types_keys _ _)
                     (or_introl (conj eq_refl buffered_boolean)))) as Hk.
    rewrite Hbuf in Hk. now rewrite Hk.
Qed.

(** C5: when the input holds a declared key whose value does not
    convert to the declared type, connect-argument coercion raises a
    configuration error that names such a key, and returns no
    connect-argument pair. *)
Theorem malformed_option_fails (to_bool : value -> option bool)
    (to_int : value -> option Z) (import_ClientFlag : result ClientFlag.t)
    (self : MySQLDialect_mysqlconnector.t) (url : URL.t)
    (k : string) (ty : pytype) (v : value) :
  declared k ty ->
  MySQLDialect_mysqlconnector.url_opts url !! k = Some v ->
  util.convert to_bool to_int ty v = None ->
  exists k' ty' v',
    declared k' ty'
    /\ MySQLDialect_mysqlconnector.url_opts url !! k' = Some v'
    /\ util.convert to_bool to_int ty' v' = None
    /\ MySQLDialect_mysqlconnector.create_connect_args to_bool to_int
         import_ClientFlag self url = Raise (ConfigurationError k').
Proof.
  intros Hd Hv Hconv. rewrite create_connect_args_stages.
  destruct (coerce_each to_bool to_int declared_types
              (MySQLDialect_mysqlconnector.url_opts url)) as [coerced|e] eqn:Hc.
  - pose proof (coerce_each_key to_bool to_int declared_types _ coerced k ty
                  declared_types_NoDup Hc (proj2 (declared_types_keys k ty) Hd))
      as Hk.
    rewrite Hv in Hk. destruct Hk as [v' [Hsome _]]. congruence.
  - destruct (coerce_each_raise to_bool to_int declared_types _ e
                declared_types_NoDup Hc) as (k' & ty' & v' & Hin & Hk' & Hconv' & ->).
    exists k', ty', v'. apply declared_types_keys in Hin. auto.
Qed.

Lemma translate_no_client_flags (url : URL.t) (username_key : string) :
  username_key <> "client_flags" ->
  URL.translate_connect_args url username_key !! "client_flags" = None.
Proof.
  intros Hne. unfold URL.translate_connect_args, URL.set_field.
  destruct (URL.port url), (URL.password url), (URL.username url),
    (URL.database url), (URL.host url); cbn [fmap option_fmap option_map];
    rewrite ?lookup_insert_ne by (discriminate || exact Hne);
    apply lookup_empty.
Qed.

(** A [client_flags] option of the input comes from the query string. *)
Lemma url_opts_client_flags (url : URL.t) :
  MySQLDialect_mysqlconnector.url_opts url !! "client_flags"
  = URL.query url !! "client_flags".
Proof.
  unfold MySQLDialect_mysqlconnector.url_opts.
  rewrite lookup_union, translate_no_client_flags by discriminate.
  now destruct (URL.query url !! "client_flags").
Qed.

(** On a [client_flags] value that is not an integer the merge raises,
    whatever the flag lookup gives. *)
Lemma merge_found_rows_not_int_raises (import_ClientFlag : result ClientFlag.t)
    (opts : gmap string value) (v : value) :
  opts !! "client_flags" = Some v ->
  Py.as_int v = None ->
  exists e, MySQLDialect_mysqlconnector.merge_found_rows import_ClientFlag opts
            = Raise e.
Proof.
  intros Hv Hint. destruct import_ClientFlag as [cf|e].
  - exact (merge_found_rows_not_int cf opts v Hv Hint).
  - now exists e.
Qed.

(** C4: for every option mapping a URL gives (its query values are
    strings), when connect-argument coercion returns, every declared
    boolean key of the input holds the boolean its value converts to
    and every declared integer key the integer its value converts to,
    every key of the input outside the declared schema holds the value
    it had, and [buffered] is true when the input has no [buffered]
    key. *)
Theorem connect_args_url_coercion (to_bool : value -> option bool)
    (to_int : value -> option Z) (import_ClientFlag : result ClientFlag.t)
    (self : MySQLDialect_mysqlconnector.t) (url : URL.t)
    (args : list value) (out : gmap string value) :
  string_valued (URL.query url) ->
  MySQLDialect_mysqlconnector.create_connect_args to_bool to_int
    import_ClientFlag self url = Return (args, out) ->
  let opts := MySQLDialect_mysqlconnector.url_opts url in
  args = []
  /\ (forall k v, k ∈ boolean_keys -> opts !! k = Some v ->
        exists b, to_bool v = Some b /\ out !! k = Some (VBool b))
  /\ (forall k v, k ∈ integer_keys -> opts !! k = Some v ->
        exists n, to_int v = Some n /\ out !! k = Some (VInt n))
  /\ (forall k v, k ∉ boolean_keys -> k ∉ integer_keys ->
        opts !! k = Some v -> out !! k = Some v)
  /\ (opts !! "buffered" = None -> out !! "buffered" = Some (VBool true)).
Proof.
  intros Hquery H. cbv zeta.
  destruct (connect_args_coercion to_bool to_int import_ClientFlag self url
              args out H) as (Hargs & Hbool & Hint & Hother & Hbuf).
  split; [exact Hargs |]. split; [exact Hbool |]. split; [exact Hint |].
  split; [| exact Hbuf].
  intros k v Hb Hi Hv.
  destruct (decide (k = "client_flags")) as [-> | Hk];
    [| now rewrite (Hother k Hb Hi Hk)].
  assert (Hstr : Py.as_int v = None).
  { rewrite url_opts_client_flags in Hv. apply Hquery in Hv.
    now destruct v. }
  rewrite create_connect_args_stages in H.
  destruct (coerce_each _ _ _ _) as [coerced|] eqn:Hc; [| discriminate].
  cbv zeta in H. injection H as _ <-.
  assert (Hkept :
    MySQLDialect_mysqlconnector.setdefault coerced "buffered" (VBool true)
      !! "client_flags" = Some v).
  { rewrite setdefault_other by discriminate. rewrite <- Hv.
    apply (coerce_each_other to_bool to_int declared_types _ _ _ Hc).
    rewrite declared_types_fst. tauto. }
  destruct (MySQLDialect_mysqlconnector.dbapi self); [| exact Hkept].
  destruct (merge_found_rows_not_int_raises import_ClientFlag _ v Hkept Hstr)
    as [e ->].
  exact Hkept.
Qed.

Lemma connect_args_url_coercion_witness :
  let url := query_url [("autocommit", VStr "true"); ("pool_size", VStr "5");
                        ("unknown_opt", VStr "foo"); ("client_flags", VStr "2")] in
  let out : gmap string value :=
    list_to_map [("autocommit", VBool true); ("pool_size", VInt 5);
                 ("unknown_opt", VStr "foo"); ("client_flags", VStr "2");
                 ("buffered", VBool true)] in
  string_valued (URL.query url)
  /\ MySQLDialect_mysqlconnector.create_connect_args util.asbool util.asint
       (client_flag_constants 0 2) loaded_dialect url = Return ([], out)
  /\ (exists b, util.asbool (VStr "true") = Some b
                /\ out !! "autocommit" = Some (VBool b))
  /\ (exists n, util.asint (VStr "5") = Some n
                /\ out !! "pool_size" = Some (VInt n))
  /\ out !! "unknown_opt" = Some (VStr "foo")
  /\ out !! "client_flags" = Some (VStr "2")
  /\ out !! "buffered" = Some (VBool true).
Proof.
  cbv zeta.
  assert (Hquery :
    string_valued
      (URL.query
         (query_url [("autocommit", VStr "true"); ("pool_size", VStr "5");
                     ("unknown_opt", VStr "foo"); ("client_flags", VStr "2")]))).
  { apply (bool_decide_unpack (map_Forall _ _)). vm_compute. exact I. }
  assert (Hrun :
    MySQLDialect_mysqlconnector.create_connect_args util.asbool util.asint
      (client_flag_constants 0 2) loaded_dialect
      (query_url [("autocommit", VStr "true"); ("pool_size", VStr "5");
                  ("unknown_opt", VStr "foo"); ("client_flags", VStr "2")])
    = Return ([], list_to_map [("autocommit", VBool true); ("pool_size", VInt 5);
                               ("unknown_opt", VStr "foo");
                               ("client_flags", VStr "2");
                               ("buffered", VBool true)]))
    by (vm_compute; reflexivity).
  split; [exact Hquery |]. split; [exact Hrun |].
  destruct (connect_args_url_coercion _ _ _ _ _ _ _ Hquery Hrun)
    as (_ & Hbool & Hint & Hother & Hbuf).
  split; [| split; [| split; [| split]]].
  - apply Hbool; [| reflexivity].
    apply (bool_decide_unpack (_ ∈ _)). vm_compute. exact I.
  - apply Hint; [| reflexivity].
    apply (bool_decide_unpack (_ ∈ _)). vm_compute. exact I.
  - apply Hother; [| | reflexivity];
      apply (bool_decide_unpack (_ ∉ _)); vm_compute; exact I.
  - apply Hother; [| | reflexivity];
      apply (bool_decide_unpack (_ ∉ _)); vm_compute; exact I.
  - apply Hbuf. reflexivity.
Defined.

Lemma malformed_option_fails_witness :
  let url := query_url [("pool_size", VStr "not-a-number")] in
  declared "pool_size" py_int
  /\ MySQLDialect_mysqlconnector.url_opts url !! "pool_size"
     = Some (VStr "not-a-number")
  /\ util.convert util.asbool util.asint py_int (VStr "not-a-number") = None
  /\ exists k' ty' v',
       declared k' ty'
       /\ MySQLDialect_mysqlconnector.url_opts url !! k' = Some v'
       /\ util.convert util.asbool util.asint ty' v' = None
       /\ MySQLDialect_mysqlconnector.create_connect_args util.asbool util.asint
            (client_flag_constants 0 2) loaded_dialect url
          = Raise (ConfigurationError k').
Proof.
  cbv zeta.
  assert (Hd : declared "pool_size" py_int).
  { right. split; [reflexivity |].
    apply (bool_decide_unpack (_ ∈ _)). vm_compute. exact I. }
  split; [exact Hd |]. split; [reflexivity |]. split; [reflexivity |].
  apply (malformed_option_fails util.asbool util.asint (client_flag_constants 0 2)
           loaded_dialect (query_url [("pool_size", VStr "not-a-number")])
           "pool_size" py_int (VStr "not-a-number") Hd); reflexivity.
Defined.

(** ** The FOUND_ROWS merge *)

(** When the flag lookup raises, the merge step is skipped and the
    coerced options are returned as they are. *)
Lemma create_connect_args_lookup_raises (to_bool : value -> option bool)
    (to_int : value -> option Z) (e : pyexc)
    (self : MySQLDialect_mysqlconnector.t) (url : URL.t)
    (coerced : gmap string value) :
  coerce_each to_bool to_int declared_types
    (MySQLDialect_mysqlconnector.url_opts url) = Return coerced ->
  MySQLDialect_mysqlconnector.create_connect_args to_bool to_int (Raise e) self url
  = Return ([], MySQLDialect_mysqlconnector.setdefault coerced "buffered"
                  (VBool true)).
Proof.
  intros Hc. rewrite create_connect_args_stages, Hc. cbv zeta.
  now destruct (MySQLDialect_mysqlconnector.dbapi self).
Qed.

(** When the lookup succeeds and [client_flags] is absent or an
    integer, every bit of FOUND_ROWS is set in the returned option. *)
Lemma create_connect_args_merges (to_bool : value -> option bool)
    (to_int : value -> option Z) (cf : ClientFlag.t) (d : DBAPI.t)
    (self : MySQLDialect_mysqlconnector.t) (url : URL.t)
    (dflt found_rows flags : Z) (args : list value) (out : gmap string value) :
  MySQLDialect_mysqlconnector.dbapi self = Some d ->
  ClientFlag.get_default cf = Return dflt ->
  ClientFlag.FOUND_ROWS cf = Return found_rows ->
  Py.as_int (default (VInt dflt)
               (MySQLDialect_mysqlconnector.url_opts url !! "client_flags"))
  = Some flags ->
  MySQLDialect_mysqlconnector.create_connect_args to_bool to_int (Return cf) self url
  = Return (args, out) ->
  out !! "client_flags" = Some (VInt (Z.lor flags found_rows))
  /\ Z.land (Z.lor flags found_rows) found_rows = found_rows.
Proof.
  intros Hd Hdf Hfr Hflags H. split.
  - rewrite create_connect_args_stages in H.
    destruct (coerce_each _ _ _ _) as [coerced|] eqn:Hc; [| discriminate].
    cbv zeta in H. rewrite Hd in H.
    assert (Hsame :
      MySQLDialect_mysqlconnector.setdefault coerced "buffered" (VBool true)
        !! "client_flags"
      = MySQLDialect_mysqlconnector.url_opts url !! "client_flags").
    { rewrite setdefault_other by discriminate.
      apply (coerce_each_other to_bool to_int declared_types _ _ _ Hc).
      rewrite declared_types_fst. destruct client_flags_undeclared. tauto. }
    rewrite <- Hsame in Hflags.
    rewrite (merge_found_rows_int cf _ dflt found_rows flags Hdf Hfr Hflags) in H.
    injection H as _ <-. now rewrite lookup_insert_eq.
  - apply Z.bits_inj'. intros n Hn.
    rewrite Z.land_spec, Z.lor_spec. now destruct (Z.testbit found_rows n), (Z.testbit flags n).
Qed.

(** C7, at the failing input: the URL query gives [client_flags] as the
    string [2], the driver is loaded and the flag lookup succeeds.  The
    string is never coerced (the schema names [client_flag]), [|=]
    raises on it, the handler swallows the error, and the returned
    mapping holds [client_flags] without the FOUND_ROWS bit. *)
Theorem client_flags_string_not_merged (to_bool : value -> option bool)
    (to_int : value -> option Z) (dflt found_rows : Z) :
  MySQLDialect_mysqlconnector.create_connect_args to_bool to_int
    (client_flag_constants dflt found_rows) loaded_dialect
    (query_url [("client_flags", VStr "2")])
  = Return ([], list_to_map [("client_flags", VStr "2"); ("buffered", VBool true)]).
Proof. vm_compute. reflexivity. Qed.

(** ** More on JSON path formatting *)

Lemma values_comprehension (l : list value) :
  comprehension
    (fun elem =>
       if Py.isinstance_int elem
       then Py.percent "[%s]" elem
       else Py.percent (String "." (String Py.dquote
              (String "%" (String "s" (String Py.dquote EmptyString)))))
              elem)
    l
  = Return (value_fragment <$> l).
Proof.
  induction l as [|v l IH]; [reflexivity |].
  cbn [comprehension]. rewrite IH.
  now destruct v as [|[]| |].
Qed.

Lemma join_empty_cons (x : string) (l : list string) :
  Py.join EmptyString (x :: l) = x +:+ Py.join EmptyString l.
Proof.
  destruct l as [|y l]; cbn [Py.join]; [now rewrite app_nil_r | reflexivity].
Qed.

Lemma join_empty_app (l1 l2 : list string) :
  Py.join EmptyString (l1 ++ l2)%list
  = Py.join EmptyString l1 +:+ Py.join EmptyString l2.
Proof.
  induction l1 as [|x l1 IH]; [reflexivity |].
  rewrite <- app_comm_cons, !join_empty_cons, IH. now rewrite app_assoc.
Qed.

Lemma values_format (l : list value) :
  JSONPathType._format_value l
  = Return (String "$" (Py.join EmptyString (value_fragment <$> l))).
Proof.
  unfold JSONPathType._format_value. rewrite values_comprehension.
  cbn [mbind result_bind]. unfold Py.percent. simpl. now rewrite app_nil_r.
Qed.

(** X1: a path of one step, of any scalar value, formats as the single-step
    index accessor formats that step. *)
Theorem single_step_agrees (v : value) :
  JSONPathType._format_value [v] = JSONIndexType._format_value v.
Proof.
  rewrite values_format. unfold JSONIndexType._format_value, value_fragment.
  now destruct v as [|[]| |].
Qed.

(** X2: full-path formatting never raises on scalar steps, and the
    expression of a concatenated path is the expression of the first
    part followed by the expression of the second without its [$]. *)
Theorem path_format_concat (p q : list value) :
  exists sp sq,
    JSONPathType._format_value p = Return (String "$" sp)
    /\ JSONPathType._format_value q = Return (String "$" sq)
    /\ JSONPathType._format_value (p ++ q)%list = Return (String "$" (sp +:+ sq)).
Proof.
  exists (Py.join EmptyString (value_fragment <$> p)),
         (Py.join EmptyString (value_fragment <$> q)).
  rewrite !values_format, fmap_app, join_empty_app. easy.
Qed.

(** Two strings that end at the first occurrence of a delimiter. *)
Lemma delimited_inj (c : ascii) (a b r1 r2 : string) :
  count_char c a = 0%nat -> count_char c b = 0%nat ->
  a +:+ String c r1 = b +:+ String c r2 -> a = b /\ r1 = r2.
Proof.
  revert b. induction a as [|x a IH]; intros [|y b] Ha Hb H; cbn [append] in H.
  - now injection H as ->.
  - injection H as -> _. cbn [count_char] in Hb.
    rewrite Ascii.eqb_refl in Hb. discriminate.
  - injection H as -> _. cbn [count_char] in Ha.
    rewrite Ascii.eqb_refl in Ha. discriminate.
  - injection H as -> H. cbn [count_char] in Ha, Hb.
    destruct (IH b) as [-> ->]; [lia | lia | exact H | easy].
Qed.

Lemma app_inv_last (c : ascii) (a b : string) :
  a +:+ String c EmptyString = b +:+ String c EmptyString -> a = b.
Proof.
  revert b. induction a as [|x a IH]; intros [|y b] H; cbn [append] in H.
  - reflexivity.
  - injection H as _ H. destruct b; discriminate.
  - injection H as _ H. destruct a; discriminate.
  - injection H as -> H. now rewrite (IH b H).
Qed.

Lemma str_int_inj (i j : Z) : Py.str_int i = Py.str_int j -> i = j.
Proof.
  intros H. pose proof (str_int_decimal i) as Hi.
  rewrite H, str_int_decimal in Hi. congruence.
Qed.

Lemma uint_no_bracket (u : Decimal.uint) :
  count_char "]" (NilEmpty.string_of_uint u) = 0%nat.
Proof. induction u; cbn; auto. Qed.

Lemma str_int_no_bracket (i : Z) : count_char "]" (Py.str_int i) = 0%nat.
Proof.
  unfold Py.str_int.
  destruct i as [|p|p]; cbn [Z.to_int NilZero.string_of_int]; [reflexivity | |].
  - unfold NilZero.string_of_uint.
    destruct (Pos.to_uint p) eqn:E; [reflexivity | ..]; apply (uint_no_bracket _).
  - cbn [count_char]. unfold NilZero.string_of_uint.
    destruct (Pos.to_uint p) eqn:E; [reflexivity | ..]; apply (uint_no_bracket _).
Qed.

Lemma fragments_app (p q : list PathStep) :
  fragments (p ++ q)%list = fragments p +:+ fragments q.
Proof.
  induction p as [|s p IH]; [reflexivity |].
  cbn [app fragments]. now rewrite IH, app_assoc.
Qed.

Lemma fragments_inj (p q : list PathStep) :
  quote_free p -> quote_free q -> fragments p = fragments q -> p = q.
Proof.
  unfold quote_free. revert q.
  induction p as [|s p IH]; intros [|t q] Hp Hq H.
  - reflexivity.
  - destruct t; discriminate H.
  - destruct s; discriminate H.
  - apply Forall_cons in Hp as [Hs Hp]. apply Forall_cons in Hq as [Ht Hq].
    cbn [fragments] in H.
    destruct s as [i|k], t as [j|k']; cbn [fragment append] in H;
      try discriminate H.
    + injection H as H. rewrite !app_assoc in H. cbn [append] in H.
      apply delimited_inj in H as [Hij H]; try apply str_int_no_bracket.
      apply str_int_inj in Hij as ->. now rewrite (IH q Hp Hq H).
    + unfold quoted in H. cbn [append] in H. injection H as H.
      rewrite !app_assoc in H. cbn [append] in H.
      apply delimited_inj in H as [-> H]; [| assumption ..].
      now rewrite (IH q Hp Hq H).
Qed.

(** X3: on paths whose keys hold no quote character, full-path formatting
    is injective: two paths with the same expression are the same. *)
Theorem path_format_injective (p q : list PathStep) :
  quote_free p -> quote_free q ->
  JSONPathType._format_value (step_value <$> p)
  = JSONPathType._format_value (step_value <$> q) ->
  p = q.
Proof.
  intros Hp Hq. rewrite !path_format_value. unfold path_expression.
  intros H. injection H as H. now apply fragments_inj.
Qed.

(** X4: keys are not escaped: one key that holds a quote, a dot and a quote
    formats exactly as the two keys around them, anywhere in a path. *)
Theorem path_format_key_collision (p q : list PathStep) (k1 k2 : string) :
  (p ++ [KeyStep (k1 +:+ key_separator +:+ k2)] ++ q)%list
  <> (p ++ [KeyStep k1; KeyStep k2] ++ q)%list
  /\ JSONPathType._format_value
       (step_value <$> (p ++ [KeyStep (k1 +:+ key_separator +:+ k2)] ++ q)%list)
     = JSONPathType._format_value
         (step_value <$> (p ++ [KeyStep k1; KeyStep k2] ++ q)%list).
Proof.
  split.
  - intros H. apply (f_equal (@length _)) in H.
    rewrite !List.length_app in H. cbn [length] in H. lia.
  - rewrite !path_format_value. unfold path_expression.
    rewrite !fragments_app. cbn [fragments fragment].
    unfold quoted, key_separator. cbn [append].
    rewrite !app_assoc. cbn [append]. rewrite !app_assoc. reflexivity.
Qed.

(** X5: single-step index formatting is injective on steps, quotes or not. *)
Theorem index_format_injective (s t : PathStep) :
  JSONIndexType._format_value (step_value s)
  = JSONIndexType._format_value (step_value t) ->
  s = t.
Proof.
  destruct s as [i|k], t as [j|k']; cbn; intros H; injection H as H;
    try discriminate H.
  - apply app_inv_last in H. now apply str_int_inj in H as ->.
  - apply app_inv_last in H. now subst.
Qed.

(** ** More on the identifier preparer *)

Lemma replace_single_char (q : ascii) (new s : string) :
  Py.replace (String q EmptyString) new s
  = Py.replace_from (String q EmptyString) new 0 s.
Proof. reflexivity. Qed.

Lemma escape_doubles (q : ascii) (s : string) :
  Py.replace (String q EmptyString) (String q (String q EmptyString)) s
  = double_char q s.
Proof.
  rewrite replace_single_char. induction s as [|c s IH]; [reflexivity |].
  cbn [Py.replace_from Py.startswith String.length Nat.pred double_char].
  rewrite andb_true_r, IH. now destruct (Ascii.eqb q c).
Qed.

Lemma unescape_doubled (q : ascii) (s : string) :
  Py.replace (String q (String q EmptyString)) (String q EmptyString)
    (double_char q s) = s.
Proof.
  unfold Py.replace. induction s as [|c s IH]; [reflexivity |].
  cbn [double_char]. destruct (Ascii.eqb q c) eqn:E.
  - apply Ascii.eqb_eq in E as <-.
    cbn [Py.replace_from Py.startswith String.length Nat.pred append].
    rewrite !Ascii.eqb_refl. cbn [andb append]. now rewrite IH.
  - cbn [Py.replace_from Py.startswith]. rewrite E. cbn [andb]. now rewrite IH.
Qed.

Lemma double_char_counts (q : ascii) (s : string) :
  count_char q (double_char q s) = (2 * count_char q s)%nat
  /\ String.length (double_char q s) = (String.length s + count_char q s)%nat.
Proof.
  induction s as [|c s [IHc IHl]]; [easy |].
  cbn [double_char count_char String.length].
  destruct (Ascii.eqb q c) eqn:E; cbn [count_char String.length];
    rewrite ?Ascii.eqb_refl, ?E, IHc, IHl; lia.
Qed.

(** X6: with a one-character quote that is escaped by doubling, the inverse
    replacement gives the identifier back: escaping loses nothing. *)
Theorem escape_identifier_round_trip
    (self : MySQLIdentifierPreparer_mysqlconnector.t) (q : ascii) (value : string) :
  MySQLIdentifierPreparer_mysqlconnector.escape_quote self = String q EmptyString ->
  MySQLIdentifierPreparer_mysqlconnector.escape_to_quote self
  = String q (String q EmptyString) ->
  Py.replace (MySQLIdentifierPreparer_mysqlconnector.escape_to_quote self)
    (MySQLIdentifierPreparer_mysqlconnector.escape_quote self)
    (MySQLIdentifierPreparer_mysqlconnector._escape_identifier self value)
  = value.
Proof.
  intros Hq Hqq. unfold MySQLIdentifierPreparer_mysqlconnector._escape_identifier.
  rewrite Hq, Hqq, escape_doubles. apply unescape_doubled.
Qed.

(** X7: with a one-character quote that is escaped by doubling, the escaped
    identifier holds twice as many quote characters as the identifier,
    an even number, and is longer by one character for each of them. *)
Theorem escape_identifier_counts
    (self : MySQLIdentifierPreparer_mysqlconnector.t) (q : ascii) (value : string) :
  MySQLIdentifierPreparer_mysqlconnector.escape_quote self = String q EmptyString ->
  MySQLIdentifierPreparer_mysqlconnector.escape_to_quote self
  = String q (String q EmptyString) ->
  let escaped := MySQLIdentifierPreparer_mysqlconnector._escape_identifier self value in
  count_char q escaped = (2 * count_char q value)%nat
  /\ String.length escaped = (String.length value + count_char q value)%nat.
Proof.
  intros Hq Hqq. cbv zeta.
  unfold MySQLIdentifierPreparer_mysqlconnector._escape_identifier.
  rewrite Hq, Hqq, escape_doubles. apply double_char_counts.
Qed.

(** ** More on the health classifier *)

Lemma none_bool_str_not_fatal (v : value) :
  v = VNone \/ (exists b, v = VBool b) \/ (exists s, v = VStr s) ->
  Py.in_tuple v (VInt <$> MySQLDialect_mysqlconnector.errnos) = false.
Proof.
  intros [-> | [[[] ->] | [s ->]]]; reflexivity.
Qed.

(** X8: an errno that is None, a boolean or a string, such as the string
    2006, never counts as a fatal code: the answer rests on the message
    alone. *)
Theorem is_disconnect_none_or_string_errno (self : MySQLDialect_mysqlconnector.t)
    (d : DBAPI.t) (e : Exc.t) (connection cursor : value)
    (errno : value) (msg : string) :
  MySQLDialect_mysqlconnector.dbapi self = Some d ->
  recognized d e = true ->
  Exc.errno e = Some errno ->
  errno = VNone \/ (exists b, errno = VBool b) \/ (exists s, errno = VStr s) ->
  Exc.message e = Return msg ->
  exists b,
    MySQLDialect_mysqlconnector.is_disconnect self e connection cursor = Return b
    /\ (b = true <-> occurs phrase1 msg \/ occurs phrase2 msg).
Proof.
  intros Hd Hr He Hn Hm.
  rewrite (is_disconnect_recognized self d e connection cursor Hd Hr), He, Hm.
  rewrite (none_bool_str_not_fatal errno Hn).
  exists (Py.contains phrase1 msg || Py.contains phrase2 msg).
  split; [reflexivity |].
  now rewrite orb_true_iff, !contains_spec.
Qed.

(** X9: the classifier and the error-code accessor agree on an instance of
    a recognized category: when the accessor raises, so does the
    classifier, with the same exception; when the accessor returns one
    of the six codes the classifier answers true without reading the
    message. *)
Theorem extract_error_code_agrees (self : MySQLDialect_mysqlconnector.t)
    (d : DBAPI.t) (e : Exc.t) (connection cursor : value) :
  MySQLDialect_mysqlconnector.dbapi self = Some d ->
  recognized d e = true ->
  (forall x,
     MySQLDialect_mysqlconnector_info._extract_error_code self e = Raise x ->
     MySQLDialect_mysqlconnector.is_disconnect self e connection cursor = Raise x)
  /\ (forall code,
        MySQLDialect_mysqlconnector_info._extract_error_code self e
        = Return (VInt code) ->
        In code MySQLDialect_mysqlconnector.errnos ->
        MySQLDialect_mysqlconnector.is_disconnect self e connection cursor
        = Return true).
Proof.
  intros Hd Hr.
  rewrite (is_disconnect_recognized self d e connection cursor Hd Hr).
  unfold MySQLDialect_mysqlconnector_info._extract_error_code, Exc.get_errno.
  destruct (Exc.errno e) as [v|]; split.
  - discriminate.
  - intros code H Hin. injection H as ->.
    apply in_tuple_ints in Hin. now rewrite Hin.
  - intros x H. now injection H as <-.
  - discriminate.
Qed.

(** ** The driver version *)

Lemma span_app (cls : ascii -> bool) (s : string) :
  s = (span cls s).1 +:+ (span cls s).2.
Proof.
  induction s as [|c s IH]; [reflexivity |]. cbn [span].
  destruct (cls c); [| reflexivity].
  destruct (span cls s) as [d r]. cbn [fst snd] in *. simpl. now rewrite <- IH.
Qed.

Lemma span_all (cls : ascii -> bool) (s : string) :
  all_chars cls (span cls s).1 = true.
Proof.
  induction s as [|c s IH]; [reflexivity |]. cbn [span].
  destruct (cls c) eqn:Hc; [| reflexivity].
  destruct (span cls s) as [d r]. cbn [fst snd all_chars] in *. now rewrite Hc.
Qed.

Lemma span_rest (cls : ascii -> bool) (s : string) :
  not_starting cls (span cls s).2 = true.
Proof.
  induction s as [|c s IH]; [reflexivity |]. cbn [span].
  destruct (cls c) eqn:Hc.
  - now destruct (span cls s) as [d r].
  - cbn [snd not_starting]. now rewrite Hc.
Qed.

Lemma span_digits_rest (cls : ascii -> bool) (d r : string) :
  all_chars cls d = true -> not_starting cls r = true ->
  span cls (d +:+ r) = (d, r).
Proof.
  intros Hd Hr. induction d as [|c d IH].
  - destruct r as [|c r]; [reflexivity |]. cbn [append span].
    cbn [not_starting] in Hr. now destruct (cls c).
  - cbn [all_chars] in Hd. apply andb_true_iff in Hd as [Hc Hd].
    cbn [append span]. now rewrite Hc, (IH Hd).
Qed.

Lemma consumed_app (d r : string) : re.consumed (d +:+ r) r = d.
Proof.
  unfold re.consumed. rewrite length_app.
  replace (String.length d + String.length r - String.length r)%nat
    with (String.length d) by lia.
  induction d as [|c d IH]; simpl.
  - now destruct r.
  - now rewrite IH.
Qed.

Lemma star_span {A} (cls : ascii -> bool) (s : string) (k : string -> option A) :
  (forall c s', cls c = true -> k (String c s') = None)
  \/ is_Some (k (span cls s).2) ->
  re.star cls s k = k (span cls s).2.
Proof.
  induction s as [|c s IH]; intros H; [reflexivity |].
  cbn [re.star span] in *. destruct (cls c) eqn:Hc; [| reflexivity].
  destruct (span cls s) as [d r] eqn:E. cbn [snd] in *.
  rewrite (IH H). destruct (k r) eqn:Hk; [reflexivity |].
  destruct H as [H | [x Hx]]; [now apply H | congruence].
Qed.

Lemma plus_span {A} (cls : ascii -> bool) (s : string) (k : string -> option A) :
  (forall c s', cls c = true -> k (String c s') = None)
  \/ is_Some (k (span cls s).2) ->
  re.plus cls s k = match (span cls s).1 with
                    | EmptyString => None
                    | String _ _ => k (span cls s).2
                    end.
Proof.
  intros H. destruct s as [|c s]; [reflexivity |].
  cbn [re.plus span] in *. destruct (cls c) eqn:Hc; [| reflexivity].
  destruct (span cls s) as [d r] eqn:E. cbn [fst snd] in *.
  rewrite star_span; rewrite E; [reflexivity | exact H].
Qed.

Lemma digit_not_dot (c : ascii) : re.is_digit c = true -> Ascii.eqb "." c = false.
Proof. destruct c as [[] [] [] [] [] [] [] []]; (reflexivity || discriminate). Qed.

Lemma span_consumed (cls : ascii -> bool) (s d r : string) :
  span cls s = (d, r) -> re.consumed s r = d.
Proof.
  intros E. rewrite (span_app cls s) at 1. rewrite E. apply consumed_app.
Qed.

Lemma version_match_groups (s : string) :
  (fun m => re.group m [1; 2; 3]%nat)
    <$> re.match_ MySQLDialect_mysqlconnector_info.version_pattern s
  = version_groups s.
Proof.
  unfold re.match_, MySQLDialect_mysqlconnector_info.version_pattern, version_groups.
  cbn [re.run].
  rewrite plus_span.
  2:{ left. intros c s' Hc. now rewrite (digit_not_dot c Hc). }
  destruct (span re.is_digit s) as [d1 r1] eqn:E1. cbn [fst snd].
  destruct d1 as [|a1 d1]; [reflexivity |].
  destruct r1 as [|c1 r1']; [reflexivity |].
  destruct (Ascii.eqb "." c1); [| reflexivity].
  rewrite (span_consumed _ _ _ _ E1).
  rewrite plus_span.
  2:{ right. match goal with |- is_Some (match ?x with _ => _ end) => destruct x end; eauto. }
  destruct (span re.is_digit r1') as [d2 r2] eqn:E2. cbn [fst snd].
  destruct d2 as [|a2 d2]; [reflexivity |].
  rewrite (span_consumed _ _ _ _ E2).
  destruct r2 as [|c2 r2'].
  { reflexivity. }
  destruct (Ascii.eqb "." c2); [| reflexivity].
  rewrite plus_span by (right; destruct (span re.is_digit r2') as [[|??] ?]; eauto).
  destruct (span re.is_digit r2') as [d3 r3] eqn:E3. cbn [fst snd].
  destruct d3 as [|a3 d3]; [reflexivity |].
  rewrite (span_consumed _ _ _ _ E3). reflexivity.
Qed.

Lemma uint_of_digits (d : string) :
  all_chars re.is_digit d = true ->
  exists u, NilEmpty.uint_of_string d = Some u.
Proof.
  induction d as [|c d IH]; [now exists Decimal.Nil |].
  cbn [all_chars]. rewrite andb_true_iff. intros [Hc Hd].
  destruct (IH Hd) as [u Hu]. cbn [NilEmpty.uint_of_string]. rewrite Hu.
  destruct c as [[] [] [] [] [] [] [] []]; try discriminate Hc; cbn; eauto.
Qed.

Lemma int_of_digits (d : string) :
  all_chars re.is_digit d = true -> d <> EmptyString ->
  exists n, Builtins.int_ d = Return n /\ 0 <= n.
Proof.
  intros Hd Hne. destruct d as [|c d]; [congruence |].
  destruct (uint_of_digits _ Hd) as [u Hu].
  unfold Builtins.int_, NilZero.int_of_string, NilZero.uint_of_string.
  cbn [all_chars] in Hd. apply andb_true_iff in Hd as [Hc _].
  assert (Hminus : Ascii.eqb c "-" = false).
  { destruct c as [[] [] [] [] [] [] [] []]; (reflexivity || discriminate). }
  rewrite Hminus, Hu. cbn [option_map Z.of_int]. eexists. split; [reflexivity |].
  unfold Z.of_uint. apply N2Z.is_nonneg.
Qed.

Lemma int_str_int (a : Z) : Builtins.int_ (Py.str_int a) = Return a.
Proof.
  pose proof (str_int_decimal a) as H. unfold decimal_value in H.
  unfold Builtins.int_. destruct (NilZero.int_of_string (Py.str_int a)); [| discriminate].
  cbn in H. now injection H as ->.
Qed.

Lemma string_of_uint_digits (u : Decimal.uint) :
  all_chars re.is_digit (NilEmpty.string_of_uint u) = true.
Proof. induction u; cbn; auto. Qed.

Lemma str_int_digits (a : Z) :
  0 <= a ->
  all_chars re.is_digit (Py.str_int a) = true /\ Py.str_int a <> EmptyString.
Proof.
  intros Ha. unfold Py.str_int. destruct a as [|p|p]; [easy | | lia].
  cbn [Z.to_int NilZero.string_of_int]. unfold NilZero.string_of_uint.
  pose proof (DecimalPos.Unsigned.to_uint_nonnil p) as Hnil.
  destruct (Pos.to_uint p) eqn:E; [congruence | ..];
    (split; [apply (string_of_uint_digits _) | discriminate]).
Qed.

Section VersionInfo.

Variable __version__ : DBAPI.t -> option value.

Abbreviation version_info :=
  (MySQLDialect_mysqlconnector_info._mysqlconnector_version_info __version__).

Lemma version_info_groups (self : MySQLDialect_mysqlconnector.t) (d : DBAPI.t)
    (version : string) :
  MySQLDialect_mysqlconnector.dbapi self = Some d ->
  __version__ d = Some (VStr version) ->
  version_info self =
  match version_groups version with
  | Some gs => t ← comprehension Builtins.int_ (omap id gs); Return (Some t)
  | None => Return None
  end.
Proof.
  intros Hd Hv.
  unfold MySQLDialect_mysqlconnector_info._mysqlconnector_version_info.
  rewrite Hd, Hv, <- version_match_groups.
  now destruct (re.match_ _ version).
Qed.

End VersionInfo.

Lemma dot_not_digit_start (s : string) :
  not_starting re.is_digit (String "." s) = true.
Proof. reflexivity. Qed.

(** X10: the driver version [a.b.c], whatever follows it except a further
    digit, is read as the three integers: the match is anchored at the
    start of the string only. *)
Theorem version_info_three (__version__ : DBAPI.t -> option value)
    (self : MySQLDialect_mysqlconnector.t) (d : DBAPI.t)
    (a b c : Z) (suffix : string) :
  MySQLDialect_mysqlconnector.dbapi self = Some d ->
  0 <= a -> 0 <= b -> 0 <= c ->
  all_chars is_ascii suffix = true ->
  not_starting re.is_digit suffix = true ->
  __version__ d = Some (VStr (Py.str_int a +:+ "." +:+ Py.str_int b +:+ "."
                               +:+ Py.str_int c +:+ suffix)) ->
  MySQLDialect_mysqlconnector_info._mysqlconnector_version_info __version__ self
  = Return (Some [a; b; c]).
Proof.
  intros Hd Ha Hb Hc _ Hsuf Hv.
  rewrite (version_info_groups __version__ self d _ Hd Hv).
  destruct (str_int_digits a Ha) as [HA HAne].
  destruct (str_int_digits b Hb) as [HB HBne].
  destruct (str_int_digits c Hc) as [HC HCne].
  unfold version_groups. cbn [append].
  rewrite (span_digits_rest _ _ _ HA (dot_not_digit_start _)).
  destruct (Py.str_int a) as [|a0 A] eqn:EA; [congruence |].
  rewrite Ascii.eqb_refl.
  rewrite (span_digits_rest _ _ _ HB (dot_not_digit_start _)).
  destruct (Py.str_int b) as [|b0 B] eqn:EB; [congruence |].
  rewrite Ascii.eqb_refl.
  rewrite (span_digits_rest _ _ _ HC Hsuf).
  destruct (Py.str_int c) as [|c0 C] eqn:EC; [congruence |].
  cbn [omap list_omap id comprehension mbind result_bind].
  rewrite <- EA, <- EB, <- EC, !int_str_int. reflexivity.
Qed.

Lemma span_not_starting (cls : ascii -> bool) (s : string) :
  not_starting cls s = true -> span cls s = (EmptyString, s).
Proof.
  destruct s as [|c s]; [reflexivity |]. cbn [not_starting span].
  now destruct (cls c).
Qed.

(** What the groups of a match look like. *)
Lemma version_groups_some (s : string) (gs : list (option string)) :
  version_groups s = Some gs ->
  exists d1 d2 rest,
    all_chars re.is_digit d1 = true /\ d1 <> EmptyString
    /\ all_chars re.is_digit d2 = true /\ d2 <> EmptyString
    /\ s = d1 +:+ "." +:+ d2 +:+ rest
    /\ (gs = [Some d1; Some d2; None]
        \/ exists d3, all_chars re.is_digit d3 = true /\ d3 <> EmptyString
                      /\ gs = [Some d1; Some d2; Some d3]).
Proof.
  unfold version_groups.
  pose proof (span_app re.is_digit s) as Hs.
  pose proof (span_all re.is_digit s) as H1.
  destruct (span re.is_digit s) as [d1 r1]. cbn [fst snd] in Hs, H1.
  destruct d1 as [|a1 d1]; [discriminate |].
  destruct r1 as [|c1 r1']; [discriminate |].
  destruct (Ascii.eqb_spec "." c1) as [<- |]; [| discriminate].
  pose proof (span_app re.is_digit r1') as Hr.
  pose proof (span_all re.is_digit r1') as H2.
  destruct (span re.is_digit r1') as [d2 r2]. cbn [fst snd] in Hr, H2.
  destruct d2 as [|a2 d2]; [discriminate |].
  intros Hgs. exists (String a1 d1), (String a2 d2), r2.
  split; [exact H1 |]. split; [discriminate |].
  split; [exact H2 |]. split; [discriminate |].
  split; [rewrite Hs at 1; cbn [append]; now rewrite Hr at 1 |].
  destruct r2 as [|c2 r2']; [left; congruence |].
  destruct (Ascii.eqb "." c2); [| left; congruence].
  pose proof (span_all re.is_digit r2') as H3.
  destruct (span re.is_digit r2') as [d3 r3]. cbn [fst] in H3.
  destruct d3 as [|a3 d3]; [left; congruence |].
  right. exists (String a3 d3). split; [exact H3 |]. split; [discriminate | congruence].
Qed.

Lemma version_groups_ints (s : string) (gs : list (option string)) :
  version_groups s = Some gs ->
  exists t, comprehension Builtins.int_ (omap id gs) = Return t
            /\ (length t = 2%nat \/ length t = 3%nat)
            /\ Forall (fun n => 0 <= n) t.
Proof.
  intros H. apply version_groups_some in H
    as (d1 & d2 & rest & H1 & N1 & H2 & N2 & _ & Hgs).
  destruct (int_of_digits d1 H1 N1) as [n1 [E1 P1]].
  destruct (int_of_digits d2 H2 N2) as [n2 [E2 P2]].
  destruct Hgs as [-> | (d3 & H3 & N3 & ->)].
  - exists [n1; n2]. cbn [omap list_omap id comprehension mbind result_bind].
    rewrite E1. cbn [mbind result_bind]. rewrite E2. cbn [mbind result_bind].
    split; [reflexivity |]. split; [now left | repeat constructor; assumption].
  - destruct (int_of_digits d3 H3 N3) as [n3 [E3 P3]].
    exists [n1; n2; n3]. cbn [omap list_omap id comprehension mbind result_bind].
    rewrite E1. cbn [mbind result_bind]. rewrite E2. cbn [mbind result_bind].
    rewrite E3. cbn [mbind result_bind].
    split; [reflexivity |]. split; [now right | repeat constructor; assumption].
Qed.

Lemma version_groups_prefix (d1 d2 rest : string) :
  all_chars re.is_digit d1 = true -> d1 <> EmptyString ->
  all_chars re.is_digit d2 = true -> d2 <> EmptyString ->
  is_Some (version_groups (d1 +:+ "." +:+ d2 +:+ rest)).
Proof.
  intros H1 N1 H2 N2. unfold version_groups. cbn [append].
  rewrite (span_digits_rest _ _ _ H1 (dot_not_digit_start _)).
  destruct d1 as [|a1 d1]; [congruence |]. rewrite Ascii.eqb_refl.
  destruct d2 as [|a2 d2]; [congruence |].
  cbn [all_chars] in H2. apply andb_true_iff in H2 as [Ha2 _].
  cbn [append span]. rewrite Ha2.
  destruct (span re.is_digit (d2 +:+ rest)) as [d2' r2].
  destruct r2 as [|c2 r2']; [now eexists |].
  destruct (Ascii.eqb "." c2); [| now eexists].
  destruct (span re.is_digit r2') as [[|a3 d3] r3]; now eexists.
Qed.

(** X11: the driver version [a.b] not followed by a third component is read
    as the two integers. *)
Theorem version_info_two (__version__ : DBAPI.t -> option value)
    (self : MySQLDialect_mysqlconnector.t) (d : DBAPI.t)
    (a b : Z) (suffix : string) :
  MySQLDialect_mysqlconnector.dbapi self = Some d ->
  0 <= a -> 0 <= b ->
  all_chars is_ascii suffix = true ->
  not_starting re.is_digit suffix = true ->
  third_component suffix = false ->
  __version__ d = Some (VStr (Py.str_int a +:+ "." +:+ Py.str_int b +:+ suffix)) ->
  MySQLDialect_mysqlconnector_info._mysqlconnector_version_info __version__ self
  = Return (Some [a; b]).
Proof.
  intros Hd Ha Hb _ Hsuf Hthird Hv.
  rewrite (version_info_groups __version__ self d _ Hd Hv).
  destruct (str_int_digits a Ha) as [HA HAne].
  destruct (str_int_digits b Hb) as [HB HBne].
  assert (Hgs : version_groups (Py.str_int a +:+ "." +:+ Py.str_int b +:+ suffix)
                = Some [Some (Py.str_int a); Some (Py.str_int b); None]).
  { unfold version_groups. cbn [append].
    rewrite (span_digits_rest _ _ _ HA (dot_not_digit_start _)).
    destruct (Py.str_int a) as [|a0 A]; [congruence |].
    rewrite Ascii.eqb_refl.
    rewrite (span_digits_rest _ _ _ HB Hsuf).
    destruct (Py.str_int b) as [|b0 B]; [congruence |].
    destruct suffix as [|c2 r2']; [reflexivity |].
    cbn [third_component] in Hthird.
    destruct (Ascii.eqb "." c2); [| reflexivity].
    cbn [andb] in Hthird. apply negb_false_iff in Hthird.
    now rewrite (span_not_starting _ _ Hthird). }
  rewrite Hgs. cbn [omap list_omap id comprehension mbind result_bind].
  rewrite !int_str_int. reflexivity.
Qed.

(** X12: for a driver whose version is a string the property never raises:
    it is [None] or a tuple of two or three non-negative integers. *)
Theorem version_info_shape (__version__ : DBAPI.t -> option value)
    (self : MySQLDialect_mysqlconnector.t) (d : DBAPI.t) (version : string) :
  MySQLDialect_mysqlconnector.dbapi self = Some d ->
  __version__ d = Some (VStr version) ->
  all_chars is_ascii version = true ->
  MySQLDialect_mysqlconnector_info._mysqlconnector_version_info __version__ self
  = Return None
  \/ exists t,
       MySQLDialect_mysqlconnector_info._mysqlconnector_version_info __version__ self
       = Return (Some t)
       /\ (length t = 2%nat \/ length t = 3%nat)
       /\ Forall (fun n => 0 <= n) t.
Proof.
  intros Hd Hv _. rewrite (version_info_groups __version__ self d _ Hd Hv).
  destruct (version_groups version) as [gs|] eqn:E; [| now left].
  right. destruct (version_groups_ints _ _ E) as (t & Ht & Hlen & Hpos).
  exists t. rewrite Ht. easy.
Qed.

(** X13: the property is a tuple exactly when the version string begins with
    digits, a dot and digits. *)
Theorem version_info_matches (__version__ : DBAPI.t -> option value)
    (self : MySQLDialect_mysqlconnector.t) (d : DBAPI.t) (version : string) :
  MySQLDialect_mysqlconnector.dbapi self = Some d ->
  __version__ d = Some (VStr version) ->
  all_chars is_ascii version = true ->
  (exists t,
     MySQLDialect_mysqlconnector_info._mysqlconnector_version_info __version__ self
     = Return (Some t))
  <-> exists d1 d2 rest,
        all_chars re.is_digit d1 = true /\ d1 <> EmptyString
        /\ all_chars re.is_digit d2 = true /\ d2 <> EmptyString
        /\ version = d1 +:+ "." +:+ d2 +:+ rest.
Proof.
  intros Hd Hv _. rewrite (version_info_groups __version__ self d _ Hd Hv). split.
  - intros [t Ht]. destruct (version_groups version) as [gs|] eqn:E; [| discriminate].
    apply version_groups_some in E as (d1 & d2 & rest & H1 & N1 & H2 & N2 & Hs & _).
    now exists d1, d2, rest.
  - intros (d1 & d2 & rest & H1 & N1 & H2 & N2 & ->).
    destruct (version_groups_prefix d1 d2 rest H1 N1 H2 N2) as [gs E].
    rewrite E. destruct (version_groups_ints _ _ E) as (t & Ht & _).
    exists t. now rewrite Ht.
Qed.

(** ** More on connect-argument coercion *)

Lemma merge_found_rows_raises (import_ClientFlag : result ClientFlag.t)
    (opts : gmap string value) :
  lookup_raises import_ClientFlag ->
  exists x, MySQLDialect_mysqlconnector.merge_found_rows import_ClientFlag opts
            = Raise x.
Proof.
  unfold lookup_raises, MySQLDialect_mysqlconnector.merge_found_rows.
  destruct import_ClientFlag as [cf|x]; [| eauto].
  cbn [mbind result_bind]. intros [[x Hx] | [x Hx]].
  - rewrite Hx. eauto.
  - destruct (ClientFlag.get_default cf); [| eauto].
    cbn [mbind result_bind]. rewrite Hx. eauto.
Qed.

Lemma merge_found_rows_key (import_ClientFlag : result ClientFlag.t)
    (opts out : gmap string value) :
  MySQLDialect_mysqlconnector.merge_found_rows import_ClientFlag opts = Return out ->
  is_Some (out !! "client_flags").
Proof.
  unfold MySQLDialect_mysqlconnector.merge_found_rows. intros H.
  destruct import_ClientFlag as [cf|]; [| discriminate].
  cbn [mbind result_bind] in H.
  destruct (ClientFlag.get_default cf); [| discriminate].
  cbn [mbind result_bind] in H.
  destruct (ClientFlag.FOUND_ROWS cf); [| discriminate].
  cbn [mbind result_bind] in H.
  destruct (Py.bor _ _); [| discriminate].
  injection H as <-. rewrite lookup_insert_eq. eauto.
Qed.

Lemma coerce_each_dom (to_bool : value -> option bool) (to_int : value -> option Z)
    (sch : list (string * pytype)) (opts out : gmap string value) (k : string) :
  NoDup sch.*1 ->
  coerce_each to_bool to_int sch opts = Return out ->
  is_Some (out !! k) <-> is_Some (opts !! k).
Proof.
  intros Hnd H. destruct (decide (k ∈ sch.*1)) as [Hin | Hnin].
  - apply list_elem_of_fmap in Hin as [[k' ty] [-> Hin]]. cbn [fst].
    pose proof (coerce_each_key to_bool to_int sch opts out k' ty Hnd H Hin) as Hk.
    destruct (opts !! k') as [v|].
    + destruct Hk as [v' [_ ->]]. split; eauto.
    + rewrite Hk. reflexivity.
  - now rewrite (coerce_each_other to_bool to_int sch opts out k H Hnin).
Qed.

Lemma coerce_each_raise_first (to_bool : value -> option bool)
    (to_int : value -> option Z) (sch : list (string * pytype))
    (opts : gmap string value) (e : pyexc) :
  NoDup sch.*1 ->
  coerce_each to_bool to_int sch opts = Raise e ->
  exists pre k ty post,
    sch = (pre ++ (k, ty) :: post)%list
    /\ e = ConfigurationError k
    /\ Forall (converts to_bool to_int opts) pre
    /\ ~ converts to_bool to_int opts (k, ty).
Proof.
  revert opts. induction sch as [|[key ty'] sch IH]; intros opts Hnd H.
  - discriminate.
  - cbn [coerce_each] in H. rewrite fmap_cons, NoDup_cons in Hnd.
    destruct Hnd as [Hfresh Hnd]. cbn [fst] in Hfresh.
    destruct (util.coerce_kw_type to_bool to_int opts key ty') as [o|x] eqn:Hc;
      cbn [mbind result_bind] in H.
    + destruct (IH o Hnd H) as (pre & k & ty & post & -> & -> & Hpre & Hk).
      assert (Hsame : forall k', k' ∈ ((pre ++ (k, ty) :: post)%list).*1 ->
                                 o !! k' = opts !! k').
      { intros k' Hin. apply (coerce_kw_type_other _ _ _ _ _ _ _ Hc).
        intros ->. now apply Hfresh. }
      exists ((key, ty') :: pre), k, ty, post.
      split; [reflexivity |]. split; [reflexivity |]. split.
      * constructor.
        -- unfold converts. cbn [fst snd].
           pose proof (coerce_kw_type_key _ _ _ _ _ _ Hc) as Hkey.
           destruct (opts !! key); [| exact I].
           destruct Hkey as [v' [-> _]]. eauto.
        -- rewrite Forall_forall. rewrite Forall_forall in Hpre.
           intros [k' t'] Hin. specialize (Hpre _ Hin). unfold converts in *.
           cbn [fst snd] in *. rewrite <- Hsame; [exact Hpre |].
           rewrite fmap_app. apply elem_of_app. left.
           apply list_elem_of_fmap. now exists (k', t').
      * unfold converts in *. cbn [fst snd] in *. rewrite <- Hsame; [exact Hk |].
        rewrite fmap_app. apply elem_of_app. right. apply list_elem_of_here.
    + injection H as <-.
      apply coerce_kw_type_raise in Hc as [-> [v [Hv Hconv]]].
      exists [], key, ty', sch. split; [reflexivity |]. split; [reflexivity |].
      split; [constructor |]. unfold converts. cbn [fst snd].
      rewrite Hv, Hconv. intros [x Hx]. discriminate.
Qed.

(** X14: without a driver, or when the flag lookup raises at any of its
    steps, the [client_flags] option of the result is the one of the
    input: absent when absent, the same value otherwise. *)
Theorem connect_args_client_flags_kept (to_bool : value -> option bool)
    (to_int : value -> option Z) (import_ClientFlag : result ClientFlag.t)
    (self : MySQLDialect_mysqlconnector.t) (url : URL.t)
    (args : list value) (out : gmap string value) :
  MySQLDialect_mysqlconnector.dbapi self = None
  \/ lookup_raises import_ClientFlag ->
  MySQLDialect_mysqlconnector.create_connect_args to_bool to_int
    import_ClientFlag self url = Return (args, out) ->
  out !! "client_flags"
  = MySQLDialect_mysqlconnector.url_opts url !! "client_flags".
Proof.
  intros Hno H. rewrite create_connect_args_stages in H.
  destruct (coerce_each _ _ _ _) as [coerced|] eqn:Hc; [| discriminate].
  cbv zeta in H. injection H as _ <-.
  assert (Hkept :
    MySQLDialect_mysqlconnector.setdefault coerced "buffered" (VBool true)
      !! "client_flags"
    = MySQLDialect_mysqlconnector.url_opts url !! "client_flags").
  { rewrite setdefault_other by discriminate.
    apply (coerce_each_other to_bool to_int declared_types _ _ _ Hc).
    rewrite declared_types_fst. destruct client_flags_undeclared. tauto. }
  destruct (MySQLDialect_mysqlconnector.dbapi self) as [d|]; [| exact Hkept].
  destruct Hno as [Hno | Hno]; [discriminate |].
  destruct (merge_found_rows_raises import_ClientFlag
              (MySQLDialect_mysqlconnector.setdefault coerced "buffered" (VBool true))
              Hno) as [x ->].
  exact Hkept.
Qed.

(** X15: connect-argument coercion drops no option and adds at most
    [buffered] and [client_flags]. *)
Theorem connect_args_keys (to_bool : value -> option bool)
    (to_int : value -> option Z) (import_ClientFlag : result ClientFlag.t)
    (self : MySQLDialect_mysqlconnector.t) (url : URL.t)
    (args : list value) (out : gmap string value) :
  MySQLDialect_mysqlconnector.create_connect_args to_bool to_int
    import_ClientFlag self url = Return (args, out) ->
  let opts := MySQLDialect_mysqlconnector.url_opts url in
  (forall k, is_Some (opts !! k) -> is_Some (out !! k))
  /\ (forall k, is_Some (out !! k) ->
        is_Some (opts !! k) \/ k = "buffered" \/ k = "client_flags")
  /\ is_Some (out !! "buffered").
Proof.
  intros H. cbv zeta. rewrite create_connect_args_stages in H.
  destruct (coerce_each _ _ _ _) as [coerced|] eqn:Hc; [| discriminate].
  cbv zeta in H. injection H as _ Hout.
  pose proof (fun k => coerce_each_dom to_bool to_int declared_types _ _ k
                         declared_types_NoDup Hc) as Hdom.
  set (opts2 := MySQLDialect_mysqlconnector.setdefault coerced "buffered"
                  (VBool true)) in *.
  assert (Hother : forall k, k <> "client_flags" -> out !! k = opts2 !! k).
  { intros k Hk. subst out.
    destruct (MySQLDialect_mysqlconnector.dbapi self); [| reflexivity].
    destruct (MySQLDialect_mysqlconnector.merge_found_rows _ _) eqn:Hm;
      [| reflexivity].
    now apply (merge_found_rows_other _ _ _ _ Hm). }
  assert (Hcf : is_Some (opts2 !! "client_flags") -> is_Some (out !! "client_flags")).
  { intros Hs. subst out.
    destruct (MySQLDialect_mysqlconnector.dbapi self); [| exact Hs].
    destruct (MySQLDialect_mysqlconnector.merge_found_rows _ _) eqn:Hm;
      [| exact Hs].
    now apply (merge_found_rows_key _ _ _ Hm). }
  split; [| split].
  - intros k Hv. apply Hdom in Hv as [v' Hv'].
    assert (Hs : is_Some (opts2 !! k)).
    { exists v'. now apply setdefault_present. }
    destruct (decide (k = "client_flags")) as [-> | Hk]; [now apply Hcf |].
    now rewrite Hother.
  - intros k Hs.
    destruct (decide (k = "client_flags")) as [-> | Hk]; [tauto |].
    destruct (decide (k = "buffered")) as [-> | Hb]; [tauto |].
    left. rewrite (Hother k Hk) in Hs. unfold opts2 in Hs.
    rewrite setdefault_other in Hs by exact Hb. now apply Hdom.
  - rewrite Hother by discriminate. unfold opts2. rewrite setdefault_key. eauto.
Qed.

(** X16: whatever connect-argument coercion raises is what the coercion
    of one declared option raises on the input: the first option, in
    the order of the coercions, whose value does not convert, every
    option before it converting.  A failure of the FOUND_ROWS merge is
    never raised. *)
Theorem connect_args_error_order (to_bool : value -> option bool)
    (to_int : value -> option Z) (import_ClientFlag : result ClientFlag.t)
    (self : MySQLDialect_mysqlconnector.t) (url : URL.t) (e : pyexc) :
  MySQLDialect_mysqlconnector.create_connect_args to_bool to_int
    import_ClientFlag self url = Raise e ->
  let opts := MySQLDialect_mysqlconnector.url_opts url in
  exists pre k ty post,
    declared_types = (pre ++ (k, ty) :: post)%list
    /\ Forall (converts to_bool to_int opts) pre
    /\ ~ converts to_bool to_int opts (k, ty)
    /\ util.coerce_kw_type to_bool to_int opts k ty = Raise e.
Proof.
  intros H. cbv zeta. rewrite create_connect_args_stages in H.
  destruct (coerce_each _ _ _ _) as [coerced|x] eqn:Hc; [discriminate |].
  injection H as <-.
  destruct (coerce_each_raise_first to_bool to_int declared_types _ x
              declared_types_NoDup Hc) as (pre & k & ty & post & Hsch & -> & Hpre & Hk).
  exists pre, k, ty, post. split; [exact Hsch |]. split; [exact Hpre |].
  split; [exact Hk |].
  unfold converts in Hk. cbn [fst snd] in Hk. unfold util.coerce_kw_type.
  destruct (MySQLDialect_mysqlconnector.url_opts url !! k) as [v|];
    [| now destruct Hk].
  destruct (util.convert to_bool to_int ty v); [| reflexivity].
  destruct Hk. eauto.
Qed.

(** X17: with the driver loaded and the flag lookup succeeding, a
    [client_flags] option that is absent or an integer comes back as
    the bitwise or of FOUND_ROWS and the given flags (the driver's
    default flags when absent): a bit is set in the result exactly when
    it is set in one of the two. *)
Theorem found_rows_merged (to_bool : value -> option bool)
    (to_int : value -> option Z) (cf : ClientFlag.t) (d : DBAPI.t)
    (self : MySQLDialect_mysqlconnector.t) (url : URL.t)
    (dflt found_rows flags : Z) (args : list value) (out : gmap string value) :
  MySQLDialect_mysqlconnector.dbapi self = Some d ->
  ClientFlag.get_default cf = Return dflt ->
  ClientFlag.FOUND_ROWS cf = Return found_rows ->
  Py.as_int (default (VInt dflt)
               (MySQLDialect_mysqlconnector.url_opts url !! "client_flags"))
  = Some flags ->
  MySQLDialect_mysqlconnector.create_connect_args to_bool to_int (Return cf) self url
  = Return (args, out) ->
  exists merged,
    out !! "client_flags" = Some (VInt merged)
    /\ forall n, Z.testbit merged n = Z.testbit flags n || Z.testbit found_rows n.
Proof.
  intros Hd Hdf Hfr Hflags H.
  destruct (create_connect_args_merges to_bool to_int cf d self url dflt
              found_rows flags args out Hd Hdf Hfr Hflags H) as [Hout _].
  exists (Z.lor flags found_rows). split; [exact Hout |].
  intros n. apply Z.lor_spec.
Qed.

(** ** Sample runs of the properties above *)

Lemma version_info_three_witness :
  MySQLDialect_mysqlconnector.dbapi loaded_dialect = Some connector_module
  /\ 0 <= 8 /\ 0 <= 0 /\ 0 <= 33
  /\ all_chars is_ascii "rc1" = true
  /\ not_starting re.is_digit "rc1" = true
  /\ version_of "8.0.33rc1" connector_module
     = Some (VStr (Py.str_int 8 +:+ "." +:+ Py.str_int 0 +:+ "."
                   +:+ Py.str_int 33 +:+ "rc1"))
  /\ MySQLDialect_mysqlconnector_info._mysqlconnector_version_info
       (version_of "8.0.33rc1") loaded_dialect
     = Return (Some [8; 0; 33]).
Proof.
  repeat (split; [first [reflexivity | lia] |]).
  apply (version_info_three (version_of "8.0.33rc1") loaded_dialect
           connector_module 8 0 33 "rc1"); first [reflexivity | lia].
Defined.

Lemma version_info_two_witness :
  MySQLDialect_mysqlconnector.dbapi loaded_dialect = Some connector_module
  /\ 0 <= 2 /\ 0 <= 1
  /\ all_chars is_ascii ".x" = true
  /\ not_starting re.is_digit ".x" = true
  /\ third_component ".x" = false
  /\ version_of "2.1.x" connector_module
     = Some (VStr (Py.str_int 2 +:+ "." +:+ Py.str_int 1 +:+ ".x"))
  /\ MySQLDialect_mysqlconnector_info._mysqlconnector_version_info
       (version_of "2.1.x") loaded_dialect
     = Return (Some [2; 1]).
Proof.
  repeat (split; [first [reflexivity | lia] |]).
  apply (version_info_two (version_of "2.1.x") loaded_dialect
           connector_module 2 1 ".x"); first [reflexivity | lia].
Defined.

Lemma version_info_shape_witness :
  MySQLDialect_mysqlconnector.dbapi loaded_dialect = Some connector_module
  /\ version_of "8.0.33" connector_module = Some (VStr "8.0.33")
  /\ all_chars is_ascii "8.0.33" = true
  /\ (MySQLDialect_mysqlconnector_info._mysqlconnector_version_info
        (version_of "8.0.33") loaded_dialect = Return None
      \/ exists t,
           MySQLDialect_mysqlconnector_info._mysqlconnector_version_info
             (version_of "8.0.33") loaded_dialect = Return (Some t)
           /\ (length t = 2%nat \/ length t = 3%nat)
           /\ Forall (fun n => 0 <= n) t).
Proof.
  repeat (split; [reflexivity |]).
  apply (version_info_shape (version_of "8.0.33") loaded_dialect
           connector_module "8.0.33"); reflexivity.
Defined.

Lemma version_info_matches_witness :
  MySQLDialect_mysqlconnector.dbapi loaded_dialect = Some connector_module
  /\ version_of "v8.0" connector_module = Some (VStr "v8.0")
  /\ all_chars is_ascii "v8.0" = true
  /\ ((exists t,
         MySQLDialect_mysqlconnector_info._mysqlconnector_version_info
           (version_of "v8.0") loaded_dialect = Return (Some t))
      <-> exists d1 d2 rest,
            all_chars re.is_digit d1 = true /\ d1 <> EmptyString
            /\ all_chars re.is_digit d2 = true /\ d2 <> EmptyString
            /\ "v8.0" = d1 +:+ "." +:+ d2 +:+ rest).
Proof.
  repeat (split; [reflexivity |]).
  apply (version_info_matches (version_of "v8.0") loaded_dialect
           connector_module "v8.0"); reflexivity.
Defined.

Lemma path_format_injective_witness :
  quote_free [IndexStep 1; KeyStep "a"]
  /\ JSONPathType._format_value (step_value <$> [IndexStep 1; KeyStep "a"])
     = JSONPathType._format_value (step_value <$> [IndexStep 1; KeyStep "a"])
  /\ [IndexStep 1; KeyStep "a"] = [IndexStep 1; KeyStep "a"].
Proof.
  assert (Hq : quote_free [IndexStep 1; KeyStep "a"])
    by (repeat constructor).
  split; [exact Hq |]. split; [reflexivity |].
  exact (path_format_injective _ _ Hq Hq eq_refl).
Defined.

Lemma index_format_injective_witness :
  JSONIndexType._format_value (step_value (KeyStep "a"))
  = JSONIndexType._format_value (step_value (KeyStep "a"))
  /\ KeyStep "a" = KeyStep "a".
Proof.
  split; [reflexivity |].
  exact (index_format_injective (KeyStep "a") (KeyStep "a") eq_refl).
Defined.

Lemma escape_identifier_round_trip_witness :
  let self := MySQLIdentifierPreparer_mysqlconnector.mk "`" "``" in
  MySQLIdentifierPreparer_mysqlconnector.escape_quote self = "`"
  /\ MySQLIdentifierPreparer_mysqlconnector.escape_to_quote self = "``"
  /\ Py.replace "``" "`"
       (MySQLIdentifierPreparer_mysqlconnector._escape_identifier self "a`b``c")
     = "a`b``c".
Proof.
  cbv zeta. repeat (split; [reflexivity |]).
  exact (escape_identifier_round_trip
           (MySQLIdentifierPreparer_mysqlconnector.mk "`" "``") "`" "a`b``c"
           eq_refl eq_refl).
Defined.

Lemma escape_identifier_counts_witness :
  let self := MySQLIdentifierPreparer_mysqlconnector.mk "`" "``" in
  MySQLIdentifierPreparer_mysqlconnector.escape_quote self = "`"
  /\ MySQLIdentifierPreparer_mysqlconnector.escape_to_quote self = "``"
  /\ count_char "`"
       (MySQLIdentifierPreparer_mysqlconnector._escape_identifier self "a`b")
     = (2 * count_char "`" "a`b")%nat
  /\ String.length
       (MySQLIdentifierPreparer_mysqlconnector._escape_identifier self "a`b")
     = (String.length "a`b" + count_char "`" "a`b")%nat.
Proof.
  cbv zeta. split; [reflexivity |]. split; [reflexivity |].
  exact (escape_identifier_counts
           (MySQLIdentifierPreparer_mysqlconnector.mk "`" "``") "`" "a`b"
           eq_refl eq_refl).
Defined.

Lemma is_disconnect_none_or_string_errno_witness :
  let e := Exc.mk ["mysql.connector.errors.OperationalError"]
             (Some (VStr "2006")) (Return "Lost connection") in
  MySQLDialect_mysqlconnector.dbapi loaded_dialect = Some connector_module
  /\ recognized connector_module e = true
  /\ Exc.errno e = Some (VStr "2006")
  /\ (VStr "2006" = VNone \/ (exists b, VStr "2006" = VBool b)
      \/ (exists s, VStr "2006" = VStr s))
  /\ Exc.message e = Return "Lost connection"
  /\ exists b,
       MySQLDialect_mysqlconnector.is_disconnect loaded_dialect e VNone VNone
       = Return b
       /\ (b = true <-> occurs phrase1 "Lost connection"
                        \/ occurs phrase2 "Lost connection").
Proof.
  cbv zeta.
  assert (Hstr : VStr "2006" = VNone \/ (exists b, VStr "2006" = VBool b)
                 \/ (exists s, VStr "2006" = VStr s))
    by (right; right; now exists "2006").
  do 3 (split; [reflexivity |]). split; [exact Hstr |]. split; [reflexivity |].
  exact (is_disconnect_none_or_string_errno loaded_dialect connector_module
           (Exc.mk ["mysql.connector.errors.OperationalError"]
              (Some (VStr "2006")) (Return "Lost connection"))
           VNone VNone (VStr "2006") "Lost connection"
           eq_refl eq_refl eq_refl Hstr eq_refl).
Defined.

Lemma extract_error_code_agrees_witness :
  let e := Exc.mk ["mysql.connector.errors.InterfaceError"]
             (Some (VInt 2013)) (Raise ValueError) in
  MySQLDialect_mysqlconnector.dbapi loaded_dialect = Some connector_module
  /\ recognized connector_module e = true
  /\ MySQLDialect_mysqlconnector_info._extract_error_code loaded_dialect e
     = Return (VInt 2013)
  /\ In 2013 MySQLDialect_mysqlconnector.errnos
  /\ MySQLDialect_mysqlconnector.is_disconnect loaded_dialect e VNone VNone
     = Return true.
Proof.
  cbv zeta.
  assert (Hin : In 2013 MySQLDialect_mysqlconnector.errnos)
    by (right; left; reflexivity).
  split; [reflexivity |]. split; [reflexivity |]. split; [reflexivity |].
  split; [exact Hin |].
  exact (proj2 (extract_error_code_agrees loaded_dialect connector_module
                  (Exc.mk ["mysql.connector.errors.InterfaceError"]
                     (Some (VInt 2013)) (Raise ValueError))
                  VNone VNone eq_refl eq_refl) 2013 eq_refl Hin).
Defined.

Lemma found_rows_merged_witness :
  let cf := ClientFlag.mk (Return 1) (Return 2) in
  let out : gmap string value :=
    list_to_map [("client_flags", VInt 3); ("buffered", VBool true)] in
  MySQLDialect_mysqlconnector.dbapi loaded_dialect = Some connector_module
  /\ ClientFlag.get_default cf = Return 1
  /\ ClientFlag.FOUND_ROWS cf = Return 2
  /\ Py.as_int (default (VInt 1)
                  (MySQLDialect_mysqlconnector.url_opts (query_url [])
                     !! "client_flags")) = Some 1
  /\ MySQLDialect_mysqlconnector.create_connect_args util.asbool util.asint
       (Return cf) loaded_dialect (query_url []) = Return ([], out)
  /\ exists merged,
       out !! "client_flags" = Some (VInt merged)
       /\ forall n, Z.testbit merged n = Z.testbit 1 n || Z.testbit 2 n.
Proof.
  cbv zeta.
  assert (Hrun :
    MySQLDialect_mysqlconnector.create_connect_args util.asbool util.asint
      (Return (ClientFlag.mk (Return 1) (Return 2))) loaded_dialect (query_url [])
    = Return ([], list_to_map [("client_flags", VInt 3); ("buffered", VBool true)]))
    by (vm_compute; reflexivity).
  do 4 (split; [reflexivity |]). split; [exact Hrun |].
  exact (found_rows_merged util.asbool util.asint
           (ClientFlag.mk (Return 1) (Return 2)) connector_module loaded_dialect
           (query_url []) 1 2 1 [] _ eq_refl eq_refl eq_refl eq_refl Hrun).
Defined.

Lemma connect_args_client_flags_kept_witness :
  let url := query_url [("client_flags", VStr "2")] in
  let out : gmap string value :=
    list_to_map [("client_flags", VStr "2"); ("buffered", VBool true)] in
  (MySQLDialect_mysqlconnector.dbapi loaded_dialect = None
   \/ lookup_raises (Raise ImportError))
  /\ MySQLDialect_mysqlconnector.create_connect_args util.asbool util.asint
       (Raise ImportError) loaded_dialect url = Return ([], out)
  /\ out !! "client_flags"
     = MySQLDialect_mysqlconnector.url_opts url !! "client_flags".
Proof.
  cbv zeta.
  assert (Hno : MySQLDialect_mysqlconnector.dbapi loaded_dialect = None
                \/ lookup_raises (Raise ImportError)) by (right; exact I).
  assert (Hrun :
    MySQLDialect_mysqlconnector.create_connect_args util.asbool util.asint
      (Raise ImportError) loaded_dialect (query_url [("client_flags", VStr "2")])
    = Return ([], list_to_map [("client_flags", VStr "2"); ("buffered", VBool true)]))
    by (vm_compute; reflexivity).
  split; [exact Hno |]. split; [exact Hrun |].
  exact (connect_args_client_flags_kept _ _ _ _ _ _ _ Hno Hrun).
Defined.

Lemma connect_args_keys_witness :
  let url := query_url [("raw", VStr "false")] in
  let out : gmap string value :=
    list_to_map [("raw", VBool false); ("buffered", VBool true)] in
  MySQLDialect_mysqlconnector.create_connect_args util.asbool util.asint
    (Raise ImportError) unloaded_dialect url = Return ([], out)
  /\ is_Some (out !! "buffered").
Proof.
  cbv zeta.
  assert (Hrun :
    MySQLDialect_mysqlconnector.create_connect_args util.asbool util.asint
      (Raise ImportError) unloaded_dialect (query_url [("raw", VStr "false")])
    = Return ([], list_to_map [("raw", VBool false); ("buffered", VBool true)]))
    by (vm_compute; reflexivity).
  split; [exact Hrun |].
  exact (proj2 (proj2 (connect_args_keys _ _ _ _ _ _ _ Hrun))).
Defined.

Lemma connect_args_error_order_witness :
  let url := query_url [("raw", VStr "maybe"); ("pool_size", VStr "many");
                        ("autocommit", VStr "yes")] in
  let opts := MySQLDialect_mysqlconnector.url_opts url in
  exists e,
    MySQLDialect_mysqlconnector.create_connect_args util.asbool util.asint
      (Raise ImportError) unloaded_dialect url = Raise e
    /\ util.coerce_kw_type util.asbool util.asint opts "pool_size" py_int
       = Raise e
    /\ exists pre k ty post,
         declared_types = (pre ++ (k, ty) :: post)%list
         /\ Forall (converts util.asbool util.asint opts) pre
         /\ ~ converts util.asbool util.asint opts (k, ty)
         /\ util.coerce_kw_type util.asbool util.asint opts k ty = Raise e.
Proof.
  cbv zeta.
  assert (Hrun :
    MySQLDialect_mysqlconnector.create_connect_args util.asbool util.asint
      (Raise ImportError) unloaded_dialect
      (query_url [("raw", VStr "maybe"); ("pool_size", VStr "many");
                  ("autocommit", VStr "yes")])
    = Raise (ConfigurationError "pool_size")) by (vm_compute; reflexivity).
  exists (ConfigurationError "pool_size").
  split; [exact Hrun |]. split; [vm_compute; reflexivity |].
  exact (connect_args_error_order _ _ _ _ _ _ Hrun).
Defined.
